(** * Comparateur d'offres : the reconciliation core of [app.py]

    A shallow embedding of [process_csv], of the grouping done in [main]
    and of [compare_data], over a small model of the pandas frames they
    handle, followed by the properties of the reconciliation report.

    Conventions of the model.
    - A pandas frame is a list of column names and a list of rows, every
      row a list of cells aligned with the columns.
    - A cell is a missing value ([NaN]), a number or a text.  Numbers are
      integers.  A sum over an int64 column wraps around as in pandas; a
      sum over a float64 column is the exact sum, which is what pandas
      computes as long as the absolute values of the summands add up to
      at most 2^53; fractional quantities are outside the model.
    - Streamlit calls ([st.info], [st.warning], [st.error]) are recorded in
      a log; a Python call either returns a value or raises. *)

From Stdlib Require Import ZArith List String Ascii Bool Lia Permutation Sorted.
Import ListNotations.

Local Open Scope string_scope.
Local Open Scope list_scope.

(** ** Cells and frames *)

Inductive cell : Type :=
| NaN
| Num (n : Z)
| Str (s : string).

Definition cell_eq_dec (a b : cell) : {a = b} + {a <> b}.
Proof. decide equality; [apply Z.eq_dec | apply string_dec]. Defined.

Definition cell_eqb (a b : cell) : bool :=
  if cell_eq_dec a b then true else false.

Definition isna (c : cell) : bool :=
  match c with NaN => true | _ => false end.

Definition notna (c : cell) : bool := negb (isna c).

(** The number a cell of a numeric column contributes to a [sum()]:
    pandas skips missing values.  It is used on int64 and float64
    columns and on the numbers of an object column, never on a text. *)
Definition number_of (c : cell) : Z :=
  match c with Num n => n | _ => 0%Z end.

Record DataFrame : Type := mkDataFrame {
  columns : list string;
  rows : list (list cell)
}.

(** [pd.DataFrame()] *)
Definition pd_DataFrame : DataFrame := mkDataFrame [] [].

(** [df.empty]: true when either axis has length 0. *)
Definition empty (df : DataFrame) : bool :=
  match columns df, rows df with
  | [], _ => true
  | _, [] => true
  | _, _ => false
  end.

(** Index of a column label. *)
Fixpoint position (name : string) (cols : list string) : option nat :=
  match cols with
  | [] => None
  | c :: cs => if String.eqb c name then Some 0%nat
               else option_map S (position name cs)
  end.

(** ['name' in df.columns] *)
Definition has_column (name : string) (cols : list string) : bool :=
  existsb (String.eqb name) cols.

Definition at_ (i : nat) (row : list cell) : cell := nth i row NaN.

(** The cells of a column, [df[name]], empty when there is no such
    column. *)
Definition column (name : string) (df : DataFrame) : list cell :=
  match position name (columns df) with
  | Some i => map (at_ i) (rows df)
  | None => []
  end.

Fixpoint update (i : nat) (f : cell -> cell) (row : list cell) : list cell :=
  match row, i with
  | [], _ => []
  | c :: cs, O => f c :: cs
  | c :: cs, S i' => c :: update i' f cs
  end.

(** [df.rename(columns={old: new})] *)
Definition rename (old new : string) (df : DataFrame) : DataFrame :=
  mkDataFrame
    (map (fun c => if String.eqb c old then new else c) (columns df))
    (rows df).

(** ** Results, exceptions and Streamlit messages *)

Inductive exn : Type :=
| EmptyDataError
| KeyError (label : string)
| ValueError (text : string)
| TypeError (text : string)
| IndexError (text : string)
| Exception (text : string).

Definition str (e : exn) : string :=
  match e with
  | EmptyDataError => "No columns to parse from file"
  | KeyError label => label
  | ValueError text => text
  | TypeError text => text
  | IndexError text => text
  | Exception text => text
  end.

Inductive outcome (A : Type) : Type :=
| Return (a : A)
| Raise (e : exn).
Arguments Return {A} a.
Arguments Raise {A} e.

Inductive message : Type :=
| info (text : string)
| warning (text : string)
| error (text : string).

(** A Streamlit computation: the messages shown, and how the call ends. *)
Definition St (A : Type) : Type := (list message * outcome A)%type.

Definition ret {A} (a : A) : St A := ([], Return a).

Definition lift {A} (o : outcome A) : St A := ([], o).

Definition bind {A B} (m : St A) (k : A -> St B) : St B :=
  match m with
  | (log, Return a) => let (log', r) := k a in (log ++ log', r)
  | (log, Raise e) => (log, Raise e)
  end.

Definition st_info (text : string) : St unit := ([info text], Return tt).
Definition st_warning (text : string) : St unit := ([warning text], Return tt).
Definition st_error (text : string) : St unit := ([error text], Return tt).

(** [try: body except ... as e: handler e] *)
Definition try_except {A} (body : St A) (handler : exn -> St A) : St A :=
  match body with
  | (log, Return a) => (log, Return a)
  | (log, Raise e) => let (log', r) := handler e in (log ++ log', r)
  end.

Declare Scope st_scope.
Delimit Scope st_scope with st.
Notation "x <- m ;; k" := (bind m (fun x => k))
  (at level 100, m at next level, right associativity) : st_scope.
Notation "m ;;; k" := (bind m (fun _ => k))
  (at level 100, right associativity) : st_scope.

(** ** pandas operations used by the program *)

(** An uploaded file, described by what [pd.read_csv] makes of it: a
    header and the parsed rows, or an exception. *)
Inductive UploadedFile : Type :=
| Csv (header : list string) (body : list (list cell))
| Broken (e : exn).

(** [pd.read_csv]: a file without any column raises [EmptyDataError]. *)
Definition read_csv (f : UploadedFile) : outcome DataFrame :=
  match f with
  | Csv [] _ => Raise EmptyDataError
  | Csv header body => Return (mkDataFrame header body)
  | Broken e => Raise e
  end.

(** [df[name] = f(df[name])] *)
Definition assign (name : string) (f : cell -> cell) (df : DataFrame)
  : outcome DataFrame :=
  match position name (columns df) with
  | Some j => Return (mkDataFrame (columns df) (map (update j f) (rows df)))
  | None => Raise (KeyError name)
  end.

(** [df.dropna(subset=[name])] *)
Definition dropna (name : string) (df : DataFrame) : outcome DataFrame :=
  match position name (columns df) with
  | Some j =>
      Return (mkDataFrame (columns df)
                (filter (fun r => notna (at_ j r)) (rows df)))
  | None => Raise (KeyError name)
  end.

(** Distinct values in order of first appearance. *)
Fixpoint unique (l : list cell) : list cell :=
  match l with
  | [] => []
  | x :: t => x :: filter (fun y => negb (cell_eqb x y)) (unique t)
  end.

(** Order of group keys: numbers by value, texts lexicographically. *)
Definition cell_leb (a b : cell) : bool :=
  match a, b with
  | Num x, Num y => (x <=? y)%Z
  | Num _, _ => true
  | Str _, Num _ => false
  | Str x, Str y => String.leb x y
  | Str _, NaN => true
  | NaN, NaN => true
  | NaN, _ => false
  end.

Fixpoint insert_sorted (k : cell) (l : list cell) : list cell :=
  match l with
  | [] => [k]
  | h :: t => if cell_leb k h then k :: l else h :: insert_sorted k t
  end.

Definition sort_values (l : list cell) : list cell :=
  fold_right insert_sorted [] l.

(** The type pandas gives to a column: int64 when every cell is an
    integer of 64 bits, object when a cell is a text, float64 otherwise
    (a missing value, or an integer too large for int64). *)
Inductive dtype : Type := int64 | float64 | object.

Definition is_text (c : cell) : bool :=
  match c with Str _ => true | _ => false end.

Definition is_number (c : cell) : bool :=
  match c with Num _ => true | _ => false end.

Definition is_int64 (c : cell) : bool :=
  match c with
  | Num n => ((- 2 ^ 63 <=? n) && (n <? 2 ^ 63))%Z
  | _ => false
  end.

Definition dtype_of (col : list cell) : dtype :=
  if existsb is_text col then object
  else if forallb is_int64 col then int64
  else float64.

(** The value of an int64 computation whose exact result is [n]. *)
Definition wrap64 (n : Z) : Z := ((n + 2 ^ 63) mod 2 ^ 64 - 2 ^ 63)%Z.

(** The result of a sum whose exact value is [n], in a numeric column:
    an int64 sum wraps around; a float64 sum is taken as exact, which it
    is within the bound of the conventions above. *)
Definition typed (kind : dtype) (n : Z) : Z :=
  match kind with int64 => wrap64 n | _ => n end.

Fixpoint concat_texts (cells : list cell) : string :=
  match cells with
  | [] => ""
  | Str s :: rest => s ++ concat_texts rest
  | _ :: rest => concat_texts rest
  end.

(** Exact sum of column [j] over the rows whose column [i] holds [k]. *)
Definition group_sum (i j : nat) (k : cell) (rs : list (list cell)) : Z :=
  fold_right Z.add 0%Z
    (map (fun r => number_of (at_ j r))
         (filter (fun r => cell_eqb (at_ i r) k) rs)).

(** [sum()] of column [j] over the rows whose column [i] holds [k], in
    a column of type [kind].  In an object column the cells are Python
    values and missing ones are skipped: integers add up exactly, texts
    are concatenated, a text and a number cannot be added. *)
Definition group_value (kind : dtype) (i j : nat) (k : cell)
    (rs : list (list cell)) : outcome cell :=
  match kind with
  | object =>
      let values :=
        filter notna
          (map (at_ j) (filter (fun r => cell_eqb (at_ i r) k) rs)) in
      if forallb is_number values then Return (Num (group_sum i j k rs))
      else if forallb is_text values then Return (Str (concat_texts values))
      else Raise (TypeError "unsupported operand type(s) for +: 'int' and 'str'")
  | _ => Return (Num (typed kind (group_sum i j k rs)))
  end.

(** The rows of a grouped frame, one per key. *)
Fixpoint group_rows (kind : dtype) (i j : nat) (rs : list (list cell))
    (keys : list cell) : outcome (list (list cell)) :=
  match keys with
  | [] => Return []
  | k :: ks =>
      match group_value kind i j k rs with
      | Raise e => Raise e
      | Return v =>
          match group_rows kind i j rs ks with
          | Raise e => Raise e
          | Return t => Return ([k; v] :: t)
          end
      end
  end.

(** The group keys of column [i]: distinct, sorted, missing keys left
    out. *)
Definition group_keys (i : nat) (rs : list (list cell)) : list cell :=
  sort_values (unique (filter notna (map (at_ i) rs))).

(** [df.groupby(key, as_index=False)[val].sum()]: one row per group
    key.  [kind] is the type of the column [val], which pandas keeps
    with the frame. *)
Definition groupby_sum (kind : dtype) (key val : string) (df : DataFrame)
  : outcome DataFrame :=
  match position key (columns df), position val (columns df) with
  | Some i, Some j =>
      match group_rows kind i j (rows df) (group_keys i (rows df)) with
      | Return rs => Return (mkDataFrame [key; val] rs)
      | Raise e => Raise e
      end
  | None, _ => Raise (KeyError key)
  | _, None => Raise (KeyError val)
  end.

(** Two key columns pandas refuses to merge: both have rows, one holds
    numbers only and the other texts only. *)
Definition incompatible (lkeys rkeys : list cell) : bool :=
  match lkeys, rkeys with
  | _ :: _, _ :: _ =>
      (forallb is_number lkeys && forallb is_text rkeys)
      || (forallb is_text lkeys && forallb is_number rkeys)
  | _, _ => false
  end.

(** [pd.merge(left, right, on=key, how='outer')], restricted to the key
    and to one value column of each side (line 160 keeps no other
    column).  Rows with equal keys are paired, a key found on one side
    only gets a missing value for the other side; a numeric key column
    against a text one raises [ValueError].  A quantity column that
    gets a missing value becomes float64, which keeps integers up to
    2^53 in absolute value as they are.  The order in which the
    keys of an outer merge come out differs between pandas releases
    (order of appearance, left frame first, or sorted), so it is the
    argument [key_order]. *)
Definition merge (key_order : list cell -> list cell)
    (key lval rval : string) (left right : DataFrame) : outcome DataFrame :=
  match position key (columns left), position lval (columns left),
        position key (columns right), position rval (columns right) with
  | Some i, Some j, Some i', Some j' =>
      let keys :=
        key_order (unique (map (at_ i) (rows left)
                           ++ map (at_ i') (rows right))) in
      if incompatible (map (at_ i) (rows left)) (map (at_ i') (rows right))
      then Raise (ValueError "You are trying to merge on int64 and object columns. If you wish to proceed you should use pd.concat")
      else
      Return (mkDataFrame [key; lval; rval]
        (flat_map (fun k =>
           let ls := filter (fun r => cell_eqb (at_ i r) k) (rows left) in
           let rs := filter (fun r => cell_eqb (at_ i' r) k) (rows right) in
           match ls, rs with
           | [], _ => map (fun r => [k; NaN; at_ j' r]) rs
           | _, [] => map (fun l => [k; at_ j l; NaN]) ls
           | _, _ =>
               flat_map (fun l => map (fun r => [k; at_ j l; at_ j' r]) rs) ls
           end) keys))
  | None, _, _, _ => Raise (KeyError key)
  | _, _, None, _ => Raise (KeyError key)
  | _, None, _, _ => Raise (KeyError lval)
  | _, _, _, None => Raise (KeyError rval)
  end.

(** [column.fillna(0)] on one cell. *)
Definition fillna0 (c : cell) : cell :=
  match c with NaN => Num 0 | _ => c end.

(** Element-wise comparisons of a numeric column.  On a column that
    holds a text pandas raises [TypeError]: [merge_and_classify] checks
    for it before it compares. *)
Definition gt0 (c : cell) : bool :=
  match c with Num n => (0 <? n)%Z | _ => false end.

Definition eq0 (c : cell) : bool :=
  match c with Num n => (n =? 0)%Z | _ => false end.

Definition eq_cells (a b : cell) : bool :=
  match a, b with
  | Num x, Num y => (x =? y)%Z
  | Str x, Str y => String.eqb x y
  | _, _ => false
  end.

(** [np.select(condlist, choicelist, default)] on one row: the choice of
    the first condition that holds. *)
Fixpoint np_select {A : Type} (condlist : list bool) (choicelist : list A)
    (default : A) : A :=
  match condlist, choicelist with
  | c :: cs, r :: rs => if c then r else np_select cs rs default
  | _, _ => default
  end.

(** ** The program *)

(** A reading of decimal integer texts, to run the examples; the
    properties of [process_csv] hold for any reading of texts. *)
Definition digit_of (a : ascii) : option Z :=
  let n := Z.of_N (N_of_ascii a) in
  if ((48 <=? n) && (n <=? 57))%Z then Some (n - 48)%Z else None.

Fixpoint digits (acc : Z) (s : string) : option Z :=
  match s with
  | EmptyString => Some acc
  | String a t =>
      match digit_of a with
      | Some d => digits (10 * acc + d)%Z t
      | None => None
      end
  end.

Definition decimal (s : string) : option Z :=
  match s with
  | EmptyString => None
  | String "-"%char EmptyString => None
  | String "-"%char t => option_map Z.opp (digits 0 t)
  | _ => digits 0 s
  end.

Section ProcessCsv.

(** What [pd.to_numeric] reads in a text: a number, or nothing. *)
Variable text_to_number : string -> option Z.

(** [pd.to_numeric(column, errors='coerce')] on one cell. *)
Definition to_numeric (c : cell) : cell :=
  match c with
  | Str s => match text_to_number s with Some n => Num n | None => NaN end
  | _ => c
  end.

Definition process_csv (uploaded_file : option UploadedFile) : St DataFrame :=
  match uploaded_file with
  | None =>
      (st_info "Veuillez charger un fichier CSV pour l'offre." ;;;
       ret pd_DataFrame)%st
  | Some file =>
      try_except
        (df <- lift (read_csv file) ;;
         if negb (has_column "ArticleNumber" (columns df))
            || negb (has_column "Quantity" (columns df))
         then
           st_error "Le fichier CSV doit contenir les colonnes 'ArticleNumber' et 'Quantity'." ;;;
           ret pd_DataFrame
         else
           df <- lift (assign "Quantity" to_numeric df) ;;
           (* the type line 90 gives to the column stays after line 92 *)
           let kind := dtype_of (column "Quantity" df) in
           df <- lift (dropna "Quantity" df) ;;
           df_grouped <-
             lift (groupby_sum kind "ArticleNumber" "Quantity" df) ;;
           ret df_grouped)%st
        (fun e =>
           match e with
           | EmptyDataError =>
               (st_error "Le fichier CSV est vide." ;;; ret pd_DataFrame)%st
           | _ =>
               (st_error ("Erreur lors du traitement du fichier CSV: " ++ str e) ;;;
                ret pd_DataFrame)%st
           end)
  end.

End ProcessCsv.

(** Lines 209-211 of [main]: the grouping of the rows fetched from the
    database, skipped when the fetch gave an empty frame. *)
Definition df_anfrage_display (df_anfrage_raw : DataFrame)
  : outcome DataFrame :=
  if negb (empty df_anfrage_raw)
  then groupby_sum (dtype_of (column "Quantity" df_anfrage_raw))
         "ArticleNumber" "Quantity" df_anfrage_raw
  else Return pd_DataFrame.

(** [compare_data], statement by statement in the order of the text,
    the [return] of line 126 being read at the indentation of the body
    of the function, where it follows the two renamings unconditionally.
    With the indentation it has in the file, the text is not accepted by
    Python at all: see [app_py] below. *)
Definition compare_data (df_anfrage df_angebot : DataFrame) : St DataFrame :=
  if empty df_anfrage && empty df_angebot then
    (st_warning "Aucune donnée de demande ou d'offre à comparer." ;;;
     ret pd_DataFrame)%st
  else
    let df_anfrage := rename "Quantity" "Quantity_Anfrage" df_anfrage in
    let df_angebot := rename "Quantity" "Quantity_Angebot" df_angebot in
    ret pd_DataFrame.

(** The four conditions of lines 140-145 and the labels of lines 148-153,
    for one row of the merged frame. *)
Definition conditions (q_anfrage q_angebot : cell) : list bool :=
  [ gt0 q_anfrage && gt0 q_angebot && eq_cells q_anfrage q_angebot;
    gt0 q_anfrage && gt0 q_angebot && negb (eq_cells q_anfrage q_angebot);
    gt0 q_anfrage && eq0 q_angebot;
    eq0 q_anfrage && gt0 q_angebot ].

Definition Match : string := "✅ OK".
Definition QuantityMismatch : string := "⚠️ Quantité différente".
Definition MissingFromOffer : string := "❌ Manquant".
Definition ExtraInOffer : string := "🆕 En plus (Alternative ?)".
Definition UnclassifiedError : string := "Erreur".

Definition results : list string :=
  [Match; QuantityMismatch; MissingFromOffer; ExtraInOffer].

Definition Resultat (q_anfrage q_angebot : cell) : string :=
  np_select (conditions q_anfrage q_angebot) results UnclassifiedError.

Definition cols_order : list string :=
  ["ArticleNumber"; "Quantity_Anfrage"; "Quantity_Angebot"; "Résultat"].

(** Lines 128-162 of [compare_data]: the statements that come after the
    [return] of line 126 (second renaming, outer merge, filling of the
    missing quantities, classification, column selection). *)
Definition merge_and_classify (key_order : list cell -> list cell)
    (df_anfrage df_angebot : DataFrame) : outcome DataFrame :=
  let df_anfrage := rename "Quantity" "Quantity_Anfrage" df_anfrage in
  let df_angebot := rename "Quantity" "Quantity_Angebot" df_angebot in
  match merge key_order "ArticleNumber" "Quantity_Anfrage" "Quantity_Angebot"
          df_anfrage df_angebot with
  | Raise e => Raise e
  | Return df_merged =>
      if existsb (fun r => is_text (at_ 1 r) || is_text (at_ 2 r))
           (rows df_merged)
      then Raise (TypeError "'>' not supported between instances of 'str' and 'int'")
      else
      Return (mkDataFrame cols_order
        (map (fun r =>
                let q_anfrage := fillna0 (at_ 1 r) in
                let q_angebot := fillna0 (at_ 2 r) in
                [at_ 0 r; q_anfrage; q_angebot;
                 Str (Resultat q_anfrage q_angebot)])
             (rows df_merged)))
  end.

(** ** Canonical mappings, as the frames the normalisers produce *)

Definition frame_of (m : list (cell * Z)) : DataFrame :=
  mkDataFrame ["ArticleNumber"; "Quantity"]
    (map (fun kq => [fst kq; Num (snd kq)]) m).

(** [mapping.get(k, 0)] *)
Fixpoint get (m : list (cell * Z)) (k : cell) : Z :=
  match m with
  | [] => 0%Z
  | (k', q) :: t => if cell_eqb k' k then q else get t k
  end.


(** The total of the quantities [quantity r] of the raw rows [r] whose
    article [article r] is [k]. *)
Definition quantity_total (quantity : list cell -> Z)
    (article : list cell -> cell) (k : cell) (raw : list (list cell)) : Z :=
  fold_right Z.add 0%Z
    (map quantity (filter (fun r => cell_eqb (article r) k) raw)).

(** A frame with one row per key, as [groupby_sum] builds it. *)
Definition grouped (total : cell -> Z) (keys : list cell) : DataFrame :=
  mkDataFrame ["ArticleNumber"; "Quantity"]
    (map (fun k => [k; Num (total k)]) keys).

(** How a call ends. *)
Definition raises {A : Type} (m : St A) : Prop :=
  exists e, snd m = Raise e.

Definition returns {A : Type} (m : St A) (a : A) : Prop :=
  snd m = Return a.

(** The inputs [process_csv] cannot turn into a mapping: no file, a file
    [pd.read_csv] fails on, a file without any column, a header lacking
    a required column. *)
Definition unusable (uploaded_file : option UploadedFile) : Prop :=
  match uploaded_file with
  | None => True
  | Some (Broken _) => True
  | Some (Csv header _) =>
      has_column "ArticleNumber" header = false
      \/ has_column "Quantity" header = false
  end.

(** The articles of both mappings, those of [requested] first. *)
Definition union_keys (requested offered : list (cell * Z)) : list cell :=
  unique (map fst requested ++ map fst offered).

(** The report row of article [k]. *)
Definition report_row (requested offered : list (cell * Z)) (k : cell)
  : list cell :=
  [k; Num (get requested k); Num (get offered k);
   Str (Resultat (Num (get requested k)) (Num (get offered k)))].

(** The rows of an offer left once [Quantity] is coerced and the rows
    without a number dropped (lines 90 and 92). *)
Definition cleaned (text_to_number : string -> option Z) (j : nat)
    (b : list (list cell)) : list (list cell) :=
  filter (fun r => notna (at_ j r))
         (map (update j (to_numeric text_to_number)) b).

(** The type of the column [Quantity] of an offer once it is coerced
    (line 90); [dropna] does not change it. *)
Definition offer_kind (text_to_number : string -> option Z) (j : nat)
    (b : list (list cell)) : dtype :=
  dtype_of (map (at_ j) (map (update j (to_numeric text_to_number)) b)).

(** *** The raw quantities, in the words of the specification *)

(** The number a raw quantity stands for, when it can be parsed as a
    number: a number stands for itself, a text for what is read in it,
    a missing value for nothing. *)
Definition quantity_read (text_to_number : string -> option Z) (c : cell)
  : option Z :=
  match c with
  | Num n => Some n
  | Str s => text_to_number s
  | NaN => None
  end.

(** A quantity of the database: no text is read there. *)
Definition stored_quantity (c : cell) : option Z :=
  quantity_read (fun _ => None) c.

Definition amount (q : option Z) : Z :=
  match q with Some n => n | None => 0%Z end.

(** A raw quantity that can be parsed as a number. *)
Definition parses (text_to_number : string -> option Z) (c : cell) : bool :=
  match quantity_read text_to_number c with
  | Some _ => true
  | None => false
  end.

(** The sum of the quantities of the raw rows that bear the article
    [k], the article being in column [i] and the quantity in column
    [j]. *)
Definition raw_total (read : cell -> option Z) (i j : nat) (k : cell)
    (raw : list (list cell)) : Z :=
  fold_right Z.add 0%Z
    (map (fun r => amount (read (at_ j r)))
         (filter (fun r => cell_eqb (at_ i r) k) raw)).

(** The absolute values of the quantities of all the raw rows, added
    up. *)
Definition magnitude (read : cell -> option Z) (j : nat)
    (raw : list (list cell)) : Z :=
  fold_right Z.add 0%Z (map (fun r => Z.abs (amount (read (at_ j r)))) raw).


(** ** The text of [compare_data], as Python reads it *)











(** ** The database and [connect_db] *)

(** What a database call raises: a [pyodbc.Error], with its [args] and
    its text [str(ex)], or any other exception. *)
Inductive db_error : Type :=
| pyodbc_Error (args : list string) (text : string)
| other_error (text : string).

Inductive db_outcome (A : Type) : Type :=
| db_ok (a : A)
| db_raise (e : db_error).
Arguments db_ok {A} a.
Arguments db_raise {A} e.

(** An open connection, as [pd.read_sql(query, conn, params=...)] uses
    it, and the driver, [pyodbc.connect(conn_str)]. *)
Definition Connection : Type :=
  string -> option (list Z) -> db_outcome DataFrame.

Definition Driver : Type := string -> db_outcome Connection.

(** [needle in hay] on texts. *)
Fixpoint contains (needle hay : string) : bool :=
  String.prefix needle hay
  || match hay with
     | EmptyString => false
     | String _ rest => contains needle rest
     end.

Definition conn_str (server database uid pwd : string) : string :=
  ("DRIVER={SQL Server};SERVER=" ++ server ++ ";DATABASE=" ++ database
   ++ ";UID=" ++ uid ++ ";PWD=" ++ pwd)%string.

(** The query and the parameters of lines 39-46. *)
Definition query_of (anfrage_id : Z) : string * option (list Z) :=
  let query := "SELECT AnfrageID, ArticleNumber, Quantity FROM Anfrage_Positionen" in
  if (anfrage_id >? 0)%Z
  then ((query ++ " WHERE AnfrageID = ?")%string, Some [anfrage_id])
  else (query, None).

(** Lines 36-48: the connection and the query. *)
Definition fetch (pyodbc_connect : Driver)
    (server database uid pwd : string) (anfrage_id : Z)
  : db_outcome DataFrame :=
  match pyodbc_connect (conn_str server database uid pwd) with
  | db_raise e => db_raise e
  | db_ok conn =>
      conn (fst (query_of anfrage_id)) (snd (query_of anfrage_id))
  end.

Definition connect_db (pyodbc_connect : Driver)
    (server database uid pwd : string) (anfrage_id : Z) : St DataFrame :=
  match fetch pyodbc_connect server database uid pwd anfrage_id with
  | db_ok df => ret df
  | db_raise (pyodbc_Error [] ex) =>
      ([], Raise (IndexError "tuple index out of range"))
  | db_raise (pyodbc_Error (sqlstate :: _) ex) =>
      (st_error ("Erreur de connexion à la base de données: " ++ sqlstate) ;;;
       (if contains "Login failed" ex then
          st_error "Vérifiez vos identifiants de connexion (UID, PWD)."
        else if contains "Server not found" ex || contains "TCP/IP error" ex
        then st_error "Vérifiez le nom du serveur et la connectivité réseau."
        else if contains "Database not found" ex then
          st_error ("La base de données '" ++ database
                    ++ "' n'a pas été trouvée sur le serveur '" ++ server
                    ++ "'.")
        else st_error ("Détails de l'erreur: " ++ ex)) ;;;
       ret pd_DataFrame)%st
  | db_raise (other_error e) =>
      (st_error ("Une erreur inattendue est survenue lors de la connexion à la base de données: " ++ e) ;;;
       ret pd_DataFrame)%st
  end.

(** ** The page, [main] *)

(** [main] calls [compare_data] at line 250: the page below is the one
    of the module read as [compare_data] is, with the [return] of line
    126 at the indentation of the body of the function. *)

(** What the page shows, in order. *)
Inductive element : Type :=
| set_page_config (layout page_title : string)
| title (text : string)
| sidebar_header (text : string)
| header (text : string)
| shown (m : message)
| success (text : string)
| dataframe (df : DataFrame)
| download_button (label data file_name mime : string).

(** The values of the sidebar widgets of one run of the script. *)
Record Sidebar : Type := mkSidebar {
  db_server : string;
  db_database : string;
  db_uid : string;
  db_pwd : string;
  anfrage_id_filter : Z;
  uploaded_file : option UploadedFile;
  compare_button : bool
}.

(** A run of the page: the elements shown, and how it ends. *)
Definition Ui (A : Type) : Type := (list element * outcome A)%type.

Definition ui_ret {A} (a : A) : Ui A := ([], Return a).

Definition ui_bind {A B} (m : Ui A) (k : A -> Ui B) : Ui B :=
  match m with
  | (shown_so_far, Return a) =>
      let (more, r) := k a in (shown_so_far ++ more, r)
  | (shown_so_far, Raise e) => (shown_so_far, Raise e)
  end.

Definition show (e : element) : Ui unit := ([e], Return tt).

(** A call of a function that uses [st.info], [st.warning], [st.error]. *)
Definition call {A} (m : St A) : Ui A := (map shown (fst m), snd m).

Declare Scope ui_scope.
Delimit Scope ui_scope with ui.
Notation "x <- m ;; k" := (ui_bind m (fun x => k))
  (at level 100, m at next level, right associativity) : ui_scope.
Notation "m ;;; k" := (ui_bind m (fun _ => k))
  (at level 100, right associativity) : ui_scope.

(** A text is true in a condition when it is not empty. *)
Definition truthy (s : string) : bool :=
  match s with EmptyString => false | _ => true end.

(** The condition of lines 203-206. *)
Definition db_configured (ui : Sidebar) : bool :=
  truthy (db_server ui) && negb (String.eqb (db_server ui) "YOUR_SERVER")
  && truthy (db_database ui)
  && negb (String.eqb (db_database ui) "YOUR_DATABASE")
  && truthy (db_uid ui) && negb (String.eqb (db_uid ui) "YOUR_UID")
  && truthy (db_pwd ui).

Section Main.

Variable text_to_number : string -> option Z.
Variable pyodbc_connect : Driver.

(** [df.to_csv(index=False).encode('utf-8')] *)
Variable to_csv : DataFrame -> string.

(** Lines 199-218: the two frames the page works with. *)
Definition load_anfrage (ui : Sidebar) : Ui DataFrame :=
  if (anfrage_id_filter ui >? 0)%Z then
    if db_configured ui then
      (df_anfrage_raw <-
         call (connect_db pyodbc_connect (db_server ui) (db_database ui)
                 (db_uid ui) (db_pwd ui) (anfrage_id_filter ui)) ;;
       ([], df_anfrage_display df_anfrage_raw))%ui
    else ui_ret pd_DataFrame
  else ui_ret pd_DataFrame.

Definition load_angebot (ui : Sidebar) : Ui DataFrame :=
  match uploaded_file ui with
  | Some _ => call (process_csv text_to_number (uploaded_file ui))
  | None => ui_ret pd_DataFrame
  end.

(** Lines 245-295: the comparison section. *)
Definition comparison_section (ui : Sidebar)
    (df_anfrage_display df_angebot_display : DataFrame) : Ui unit :=
  if compare_button ui then
    if negb (empty df_anfrage_display) && negb (empty df_angebot_display)
    then
      (show (success "Données de la demande et de l'offre chargées. Comparaison en cours...") ;;;
       df_comparison_display <-
         call (compare_data df_anfrage_display df_angebot_display) ;;
       if negb (empty df_comparison_display) then
         show (header "Tableau Comparatif") ;;;
         show (dataframe df_comparison_display) ;;;
         show (download_button "Télécharger le tableau comparatif (CSV)"
                 (to_csv df_comparison_display)
                 "comparaison_offre_demande.csv" "text/csv")
       else
         show (header "Tableau Comparatif") ;;;
         show (shown (info "La comparaison n'a produit aucun résultat. Vérifiez que les ArticleNumber correspondent entre la demande et l'offre.")))%ui
    else if empty df_anfrage_display && empty df_angebot_display then
      show (shown (warning "Veuillez charger les données de la demande (via DB) et de l'offre (via CSV) avant de comparer."))
    else if empty df_anfrage_display then
      show (shown (warning "Les données de la demande (Anfrage) sont manquantes. Veuillez vérifier la connexion DB et l'AnfrageID."))
    else if empty df_angebot_display then
      show (shown (warning "Les données de l'offre (Angebot) n'ont pas été chargées ou traitées. Veuillez uploader un fichier CSV valide."))
    else
      show (shown (warning "Une erreur inconnue est survenue. Assurez-vous que les données de la demande et de l'offre sont correctement chargées."))
  else
    (show (header "Tableau Comparatif") ;;;
     if empty df_anfrage_display && empty df_angebot_display then
       show (shown (info "Cliquez sur 'Comparer' dans la barre latérale après avoir configuré la DB, entré une AnfrageID et chargé un fichier CSV."))
     else if empty df_anfrage_display && negb (empty df_angebot_display) then
       show (shown (info "En attente des données de la demande (Anfrage). Configurez la DB et entrez une AnfrageID."))
     else if negb (empty df_anfrage_display) && empty df_angebot_display then
       show (shown (info "En attente des données de l'offre (Angebot). Chargez un fichier CSV."))
     else if negb (empty df_anfrage_display)
             && negb (empty df_angebot_display) then
       show (shown (info "Données de la demande et de l'offre chargées. Prêt à comparer. Cliquez sur le bouton 'Comparer' dans la barre latérale."))
     else
       show (shown (info "Configurez les sources de données et cliquez sur 'Comparer'.")))%ui.

Definition main (ui : Sidebar) : Ui unit :=
  (show (set_page_config "wide" "Comparateur Offres/Demandes") ;;;
   show (title "Comparateur d'Offres Fournisseurs et Demandes Client") ;;;
   show (sidebar_header "Paramètres de Connexion DB") ;;;
   show (sidebar_header "Filtre Demande (Anfrage)") ;;;
   show (sidebar_header "Offre Fournisseur (CSV)") ;;;
   df_anfrage_display <- load_anfrage ui ;;
   df_angebot_display <- load_angebot ui ;;
   show (header "Positions de la Demande (Anfrage)") ;;;
   (if negb (empty df_anfrage_display) then
      show (dataframe df_anfrage_display)
    else if (anfrage_id_filter ui >? 0)%Z then
      show (shown (info "Aucune donnée trouvée pour cette AnfrageID ou erreur de connexion. Vérifiez les paramètres et l'ID."))
    else
      show (shown (info "Veuillez entrer une AnfrageID valide et configurer la connexion DB pour afficher les données de la demande."))) ;;;
   show (header "Positions de l'Offre (Angebot)") ;;;
   (if negb (empty df_angebot_display) then
      show (dataframe df_angebot_display)
    else match uploaded_file ui with
         | Some _ =>
             show (shown (info "Le fichier CSV n'a pas pu être traité, est vide, ou ne contient pas les colonnes requises."))
         | None =>
             show (shown (info "Veuillez charger un fichier CSV pour afficher les données de l'offre."))
         end) ;;;
   comparison_section ui df_anfrage_display df_angebot_display)%ui.

End Main.

(** ** Sample inputs *)

Definition offer_rows : list (list cell) :=
  [ [Str "B2"; Str "3"]; [Str "A1"; Str "abc"]; [Str "B2"; Num 4] ].

Definition offer_file : UploadedFile :=
  Csv ["ArticleNumber"; "Quantity"] offer_rows.

Definition request_rows : DataFrame :=
  mkDataFrame ["AnfrageID"; "ArticleNumber"; "Quantity"]
    [ [Num 7; Str "B2"; Num 2]; [Num 7; Str "A1"; Num 5];
      [Num 7; Str "B2"; Num 1] ].

Definition requested_sample : list (cell * Z) :=
  [(Str "A1", 5%Z); (Str "C3", 4%Z)].

Definition offered_sample : list (cell * Z) :=
  [(Str "A1", 3%Z); (Str "B2", 2%Z)].

Definition report_sample : DataFrame :=
  mkDataFrame cols_order
    [ [Str "A1"; Num 5; Num 3; Str QuantityMismatch];
      [Str "B2"; Num 0; Num 2; Str ExtraInOffer];
      [Str "C3"; Num 4; Num 0; Str MissingFromOffer] ].

(** A database that answers every query with [request_rows], and one
    that refuses the login. *)
Definition sample_driver : Driver :=
  fun _ => db_ok (fun _ _ => db_ok request_rows).

Definition refusing_driver : Driver :=
  fun _ => db_raise (pyodbc_Error ["28000"] "Login failed for user 'me'").

(** [ascending l]: every key is below the keys that follow it. *)
Definition ascending (l : list cell) : Prop :=
  StronglySorted (fun a b => cell_leb a b = true) l.

(** The status of an article once request and offer are exchanged. *)
Definition mirror (st : string) : string :=
  if String.eqb st MissingFromOffer then ExtraInOffer
  else if String.eqb st ExtraInOffer then MissingFromOffer
  else st.

Definition is_error (m : message) : Prop := exists text, m = error text.

(** The connection and the query of [connect_db] succeed and the
    query gives [df]; one of them raises [e]. *)
Definition succeeds_with (pyodbc_connect : Driver)
    (server database uid pwd : string) (anfrage_id : Z) (df : DataFrame)
  : Prop :=
  exists conn,
    pyodbc_connect (conn_str server database uid pwd) = db_ok conn
    /\ conn (fst (query_of anfrage_id)) (snd (query_of anfrage_id))
       = db_ok df.

Definition fails_with (pyodbc_connect : Driver)
    (server database uid pwd : string) (anfrage_id : Z) (e : db_error)
  : Prop :=
  pyodbc_connect (conn_str server database uid pwd) = db_raise e
  \/ exists conn,
       pyodbc_connect (conn_str server database uid pwd) = db_ok conn
       /\ conn (fst (query_of anfrage_id)) (snd (query_of anfrage_id))
          = db_raise e.

(** * Properties *)

(** ** Cells, columns and rows *)

Lemma cell_eqb_eq (a b : cell) : cell_eqb a b = true <-> a = b.
Proof.
  unfold cell_eqb. destruct (cell_eq_dec a b); split; congruence.
Qed.

Lemma cell_eqb_refl (a : cell) : cell_eqb a a = true.
Proof. now apply cell_eqb_eq. Qed.

Lemma cell_eqb_neq (a b : cell) : cell_eqb a b = false <-> a <> b.
Proof.
  unfold cell_eqb. destruct (cell_eq_dec a b); split; congruence.
Qed.

Lemma position_has_column (name : string) (cols : list string) (i : nat) :
  position name cols = Some i -> has_column name cols = true.
Proof.
  revert i. induction cols as [|c cs IH]; simpl; intros i H.
  - discriminate.
  - rewrite (String.eqb_sym name c).
    destruct (String.eqb c name); [reflexivity|].
    destruct (position name cs) as [i'|]; [|discriminate].
    simpl. now apply (IH i').
Qed.

Lemma has_column_position (name : string) (cols : list string) :
  has_column name cols = true -> exists i, position name cols = Some i.
Proof.
  induction cols as [|c cs IH]; simpl; intros H.
  - discriminate.
  - rewrite (String.eqb_sym name c) in H.
    destruct (String.eqb c name); [now exists 0%nat|].
    simpl in H. destruct (IH H) as [i Hi]. rewrite Hi. now exists (S i).
Qed.

Lemma position_distinct (a b : string) (cols : list string) (i j : nat) :
  a <> b -> position a cols = Some i -> position b cols = Some j -> i <> j.
Proof.
  intros Hab. revert i j.
  induction cols as [|c cs IH]; simpl; intros i j Hi Hj; [discriminate|].
  destruct (String.eqb_spec c a) as [Ea|Na];
    destruct (String.eqb_spec c b) as [Eb|Nb].
  - congruence.
  - destruct (position b cs); simpl in Hj; [|discriminate].
    injection Hi as <-. injection Hj as <-. discriminate.
  - destruct (position a cs); simpl in Hi; [|discriminate].
    injection Hi as <-. injection Hj as <-. discriminate.
  - destruct (position a cs) as [i'|]; simpl in Hi; [|discriminate].
    destruct (position b cs) as [j'|]; simpl in Hj; [|discriminate].
    injection Hi as <-. injection Hj as <-.
    specialize (IH i' j' eq_refl eq_refl). congruence.
Qed.

Lemma at_update_same (f : cell -> cell) (j : nat) (r : list cell) :
  f NaN = NaN -> at_ j (update j f r) = f (at_ j r).
Proof.
  intros Hf. unfold at_. revert j.
  induction r as [|c cs IH]; intros [|j]; simpl; auto.
Qed.

Lemma at_update_other (f : cell -> cell) (i j : nat) (r : list cell) :
  i <> j -> at_ i (update j f r) = at_ i r.
Proof.
  unfold at_. revert i j.
  induction r as [|c cs IH]; intros [|i] [|j] H; simpl; auto; congruence.
Qed.

(** ** Distinct values and sorting *)

Lemma In_unique (k : cell) (l : list cell) : In k (unique l) <-> In k l.
Proof.
  induction l as [|x t IH]; simpl; [tauto|].
  rewrite filter_In, IH, negb_true_iff, cell_eqb_neq.
  destruct (cell_eq_dec x k); intuition.
Qed.

Lemma NoDup_unique (l : list cell) : NoDup (unique l).
Proof.
  induction l as [|x t IH]; simpl; constructor.
  - rewrite filter_In, negb_true_iff, cell_eqb_neq. tauto.
  - now apply NoDup_filter.
Qed.

Lemma insert_sorted_perm (k : cell) (l : list cell) :
  Permutation (insert_sorted k l) (k :: l).
Proof.
  induction l as [|h t IH]; simpl; [reflexivity|].
  destruct (cell_leb k h); [reflexivity|].
  rewrite IH. apply perm_swap.
Qed.

Lemma sort_values_perm (l : list cell) : Permutation (sort_values l) l.
Proof.
  induction l as [|x t IH]; simpl; [reflexivity|].
  rewrite insert_sorted_perm. now constructor.
Qed.

Lemma In_group_keys (i : nat) (rs : list (list cell)) (k : cell) :
  In k (group_keys i rs) <->
  notna k = true /\ exists r, In r rs /\ at_ i r = k.
Proof.
  unfold group_keys. split.
  - intros H. apply (Permutation_in _ (sort_values_perm _)) in H.
    apply In_unique, filter_In in H. destruct H as [H Hk].
    apply in_map_iff in H. destruct H as [r [Hr Hin]]. eauto.
  - intros [Hk [r [Hin Hr]]].
    apply (Permutation_in _ (Permutation_sym (sort_values_perm _))).
    apply In_unique, filter_In. split; [|assumption].
    apply in_map_iff. eauto.
Qed.

Lemma NoDup_group_keys (i : nat) (rs : list (list cell)) :
  NoDup (group_keys i rs).
Proof.
  unfold group_keys.
  apply (Permutation_NoDup (Permutation_sym (sort_values_perm _))).
  apply NoDup_unique.
Qed.

(** ** Grouped frames *)

Lemma grouped_column (total : cell -> Z) (keys : list cell) :
  column "ArticleNumber" (grouped total keys) = keys.
Proof.
  unfold column, grouped. simpl. rewrite map_map. simpl. apply map_id.
Qed.

Lemma grouped_ext (t1 t2 : cell -> Z) (keys : list cell) :
  (forall k, t1 k = t2 k) -> grouped t1 keys = grouped t2 keys.
Proof.
  intros H. unfold grouped. f_equal. apply map_ext. intros k. now rewrite H.
Qed.


(** ** The request normaliser *)

Lemma wrap64_small (n : Z) :
  (- 2 ^ 63 <= n < 2 ^ 63)%Z -> wrap64 n = n.
Proof.
  intros H. unfold wrap64. rewrite Z.mod_small; lia.
Qed.

Lemma typed_small (kind : dtype) (n : Z) :
  (Z.abs n <= 2 ^ 53)%Z -> typed kind n = n.
Proof.
  intros H. destruct kind; cbn [typed]; try reflexivity.
  apply wrap64_small. lia.
Qed.

Lemma dtype_of_numeric (col : list cell) :
  existsb is_text col = false -> dtype_of col <> object.
Proof.
  intros H. unfold dtype_of. rewrite H.
  now destruct (forallb is_int64 col).
Qed.

Lemma no_text_column (j : nat) (rs : list (list cell)) :
  (forall r, In r rs -> is_text (at_ j r) = false) ->
  existsb is_text (map (at_ j) rs) = false.
Proof.
  intros H. destruct (existsb is_text (map (at_ j) rs)) eqn:E;
    [|reflexivity].
  apply existsb_exists in E. destruct E as [c [Hc Ec]].
  apply in_map_iff in Hc. destruct Hc as [r [<- Hr]].
  rewrite (H r Hr) in Ec. discriminate.
Qed.

Lemma group_rows_numeric (kind : dtype) (i j : nat) (rs : list (list cell))
    (keys : list cell) :
  kind <> object ->
  group_rows kind i j rs keys
  = Return (map (fun k => [k; Num (typed kind (group_sum i j k rs))]) keys).
Proof.
  intros Hk. induction keys as [|k ks IH]; cbn [group_rows map];
    [reflexivity|].
  rewrite IH. unfold group_value. now destruct kind.
Qed.

Lemma groupby_sum_numeric (kind : dtype) (cols : list string)
    (rs : list (list cell)) (i j : nat) :
  kind <> object ->
  position "ArticleNumber" cols = Some i ->
  position "Quantity" cols = Some j ->
  groupby_sum kind "ArticleNumber" "Quantity" (mkDataFrame cols rs)
  = Return (grouped (fun k => typed kind (group_sum i j k rs))
              (group_keys i rs)).
Proof.
  intros Hk Hi Hj. unfold groupby_sum. cbn [columns rows].
  now rewrite Hi, Hj, (group_rows_numeric kind i j rs _ Hk).
Qed.

Lemma df_anfrage_display_grouped (cols : list string)
    (raw : list (list cell)) (i j : nat) :
  position "ArticleNumber" cols = Some i ->
  position "Quantity" cols = Some j ->
  raw <> [] ->
  (forall r, In r raw -> is_text (at_ j r) = false) ->
  df_anfrage_display (mkDataFrame cols raw)
  = Return (grouped
              (fun k => typed (dtype_of (map (at_ j) raw))
                          (group_sum i j k raw))
              (group_keys i raw)).
Proof.
  intros Hi Hj Hraw Hnum. unfold df_anfrage_display, empty.
  cbn [columns rows].
  destruct cols as [|c cs]; [discriminate|].
  destruct raw as [|r t]; [congruence|]. cbn [negb].
  unfold column. cbn [columns rows]. rewrite Hj.
  apply groupby_sum_numeric; try assumption.
  apply dtype_of_numeric, no_text_column, Hnum.
Qed.



(** ** The offer normaliser, [process_csv] *)

Section ProcessCsvFacts.

Variable text_to_number : string -> option Z.

Local Abbreviation coerce := (to_numeric text_to_number).
Local Abbreviation normalize := (process_csv text_to_number).
Local Abbreviation clean := (cleaned text_to_number).

Lemma coerced_no_text (j : nat) (b : list (list cell)) :
  existsb is_text (map (at_ j) (map (update j coerce) b)) = false.
Proof.
  apply no_text_column. intros r Hr.
  apply in_map_iff in Hr. destruct Hr as [r0 [<- _]].
  rewrite at_update_same by reflexivity.
  destruct (at_ j r0) as [|n|t]; cbn [to_numeric is_text]; try reflexivity.
  now destruct (text_to_number t).
Qed.

Lemma offer_kind_numeric (j : nat) (b : list (list cell)) :
  offer_kind text_to_number j b <> object.
Proof. apply dtype_of_numeric, coerced_no_text. Qed.

Lemma process_csv_valid (h : list string) (b : list (list cell)) (i j : nat) :
  position "ArticleNumber" h = Some i ->
  position "Quantity" h = Some j ->
  normalize (Some (Csv h b))
  = ([], Return (grouped
                   (fun k => typed (offer_kind text_to_number j b)
                               (group_sum i j k (clean j b)))
                   (group_keys i (clean j b)))).
Proof.
  intros Hi Hj.
  assert (Ha := position_has_column _ _ _ Hi).
  assert (Hq := position_has_column _ _ _ Hj).
  destruct h as [|c cs]; [discriminate|].
  unfold process_csv, read_csv, lift, bind, try_except.
  cbn [columns]. rewrite Ha, Hq. cbn [negb orb].
  unfold assign. cbn [columns rows]. rewrite Hj.
  unfold column. cbn [columns rows]. rewrite Hj.
  unfold dropna. cbn [columns rows]. rewrite Hj.
  fold (offer_kind text_to_number j b). fold (clean j b).
  rewrite (groupby_sum_numeric _ (c :: cs) (clean j b) i j
             (offer_kind_numeric j b) Hi Hj).
  reflexivity.
Qed.

Lemma In_cleaned_keys (i j : nat) (b : list (list cell)) (k : cell) :
  i <> j ->
  In k (group_keys i (clean j b)) <->
  notna k = true /\
  exists r, In r b /\ at_ i r = k /\ notna (coerce (at_ j r)) = true.
Proof.
  intros Hij. rewrite In_group_keys. unfold cleaned.
  split; intros [Hk [r [Hin Hr]]]; split; try assumption.
  - apply filter_In in Hin. destruct Hin as [Hin Hn].
    apply in_map_iff in Hin. destruct Hin as [r0 [<- Hin]].
    exists r0. rewrite at_update_other in Hr by assumption.
    rewrite at_update_same in Hn by reflexivity. auto.
  - destruct Hr as [Hr Hn]. exists (update j coerce r). split.
    + apply filter_In. split.
      * apply in_map_iff. eauto.
      * now rewrite at_update_same by reflexivity.
    + now rewrite at_update_other by assumption.
Qed.

Lemma group_sum_cleaned (i j : nat) (b : list (list cell)) (k : cell) :
  i <> j ->
  group_sum i j k (clean j b)
  = quantity_total (fun r => number_of (coerce (at_ j r))) (at_ i) k b.
Proof.
  intros Hij. unfold group_sum, quantity_total, cleaned.
  induction b as [|r t IH]; [reflexivity|].
  cbn [map filter].
  rewrite at_update_same by reflexivity.
  destruct (notna (coerce (at_ j r))) eqn:Hn; cbn [filter].
  - rewrite at_update_other by assumption.
    destruct (cell_eqb (at_ i r) k); cbn [map fold_right].
    + rewrite at_update_same by reflexivity. now rewrite IH.
    + exact IH.
  - destruct (cell_eqb (at_ i r) k); cbn [map fold_right]; [|exact IH].
    rewrite IH. unfold notna in Hn. apply negb_false_iff in Hn.
    destruct (coerce (at_ j r)); try discriminate. reflexivity.
Qed.

Lemma required_columns_distinct (h : list string) (i j : nat) :
  position "ArticleNumber" h = Some i ->
  position "Quantity" h = Some j -> i <> j.
Proof. apply position_distinct. discriminate. Qed.

Lemma cleaned_nothing (j : nat) (b : list (list cell)) :
  (forall r, In r b -> coerce (at_ j r) = NaN) -> clean j b = [].
Proof.
  unfold cleaned. induction b as [|r t IH]; intros H; [reflexivity|].
  cbn [map filter]. rewrite at_update_same by reflexivity.
  rewrite (H r (or_introl eq_refl)). cbn [notna isna negb].
  apply IH. intros r' Hr'. apply H. now right.
Qed.

Lemma process_csv_unusable (f : option UploadedFile) :
  unusable f -> exists log, normalize f = (log, Return pd_DataFrame).
Proof.
  destruct f as [[h b|e]|]; cbn [unusable]; intros H.
  - destruct h as [|c cs]; [eexists; reflexivity|].
    unfold process_csv, read_csv, lift, bind, try_except.
    cbn [columns].
    assert (E : negb (has_column "ArticleNumber" (c :: cs))
                || negb (has_column "Quantity" (c :: cs)) = true).
    { destruct H as [-> | ->]; [reflexivity|apply orb_true_r]. }
    rewrite E. eexists; reflexivity.
  - destruct e; eexists; reflexivity.
  - eexists; reflexivity.
Qed.

(** C4 (as amended).  A header lacking [ArticleNumber] or [Quantity]
    makes [process_csv] report the error with [st.error] and return the
    empty frame [pd.DataFrame()]: no exception reaches the caller, and the
    result does not depend on the rows of the file. *)
Theorem process_csv_missing_column (h : list string) (b : list (list cell)) :
  has_column "ArticleNumber" h = false \/ has_column "Quantity" h = false ->
  normalize (Some (Csv h b))
  = ([error
        match h with
        | [] => "Le fichier CSV est vide."
        | _ => "Le fichier CSV doit contenir les colonnes 'ArticleNumber' et 'Quantity'."
        end],
     Return pd_DataFrame).
Proof.
  intros H. destruct h as [|c cs]; [reflexivity|].
  unfold process_csv, read_csv, lift, bind, try_except.
  cbn [columns].
  assert (E : negb (has_column "ArticleNumber" (c :: cs))
              || negb (has_column "Quantity" (c :: cs)) = true).
  { destruct H as [-> | ->]; [reflexivity|apply orb_true_r]. }
  now rewrite E.
Qed.

(** C5 (as amended).  A file with both required columns and no data row
    makes [process_csv] return the mapping without any article, a frame
    with the two columns and no row; nothing is raised nor reported. *)
Theorem process_csv_header_only (h : list string) :
  has_column "ArticleNumber" h = true ->
  has_column "Quantity" h = true ->
  normalize (Some (Csv h []))
  = ([], Return (mkDataFrame ["ArticleNumber"; "Quantity"] [])).
Proof.
  intros Ha Hq.
  destruct (has_column_position _ _ Ha) as [i Hi].
  destruct (has_column_position _ _ Hq) as [j Hj].
  now rewrite (process_csv_valid h [] i j Hi Hj).
Qed.

Lemma notna_coerce (c : cell) :
  notna (coerce c) = parses text_to_number c.
Proof.
  destruct c as [|n|t]; try reflexivity.
  unfold parses. cbn. now destruct (text_to_number t).
Qed.

Lemma number_of_coerce (c : cell) :
  number_of (coerce c) = amount (quantity_read text_to_number c).
Proof.
  destruct c as [|n|t]; try reflexivity.
  cbn. now destruct (text_to_number t).
Qed.

Lemma cleaned_parsed (j : nat) (b : list (list cell)) :
  clean j b
  = map (update j coerce)
        (filter (fun r => parses text_to_number (at_ j r)) b).
Proof.
  unfold cleaned. induction b as [|r t IH]; [reflexivity|].
  cbn [map filter]. rewrite at_update_same by reflexivity.
  rewrite notna_coerce.
  destruct (parses text_to_number (at_ j r)); cbn [map]; now rewrite IH.
Qed.

Lemma parses_read (c : cell) :
  parses text_to_number c = true <-> quantity_read text_to_number c <> None.
Proof.
  unfold parses. destruct (quantity_read text_to_number c);
    split; congruence.
Qed.

Lemma In_parsed_keys (i j : nat) (b : list (list cell)) (k : cell) :
  i <> j ->
  In k (group_keys i (clean j b)) <->
  notna k = true /\
  exists r, In r b /\ at_ i r = k
            /\ quantity_read text_to_number (at_ j r) <> None.
Proof.
  intros Hij. rewrite (In_cleaned_keys i j b k Hij).
  split; intros [Hk [r [Hin [Hr Hn]]]]; split; try assumption;
    exists r; repeat split; try assumption.
  - apply parses_read. now rewrite <- notna_coerce.
  - rewrite notna_coerce. now apply parses_read.
Qed.

(** C6.  Lenient cleaning: with both required columns present, the
    call returns and reports nothing; the rows that reach the grouping
    are the rows whose quantity can be parsed as a number, the others
    are dropped; the articles of the mapping are those with a row whose
    quantity can be parsed, so an article all of whose rows are dropped
    is absent. *)
Theorem process_csv_drops_unparseable (h : list string)
    (b : list (list cell)) (i j : nat) :
  position "ArticleNumber" h = Some i ->
  position "Quantity" h = Some j ->
  exists out,
    normalize (Some (Csv h b)) = ([], Return out) /\
    clean j b
    = map (update j coerce)
          (filter (fun r => parses text_to_number (at_ j r)) b) /\
    (forall k,
       In k (column "ArticleNumber" out) <->
       notna k = true /\
       exists r, In r b /\ at_ i r = k
                 /\ quantity_read text_to_number (at_ j r) <> None) /\
    (forall k,
       (forall r, In r b -> at_ i r = k ->
                  quantity_read text_to_number (at_ j r) = None) ->
       ~ In k (column "ArticleNumber" out)).
Proof.
  intros Hi Hj.
  assert (Hij := required_columns_distinct h i j Hi Hj).
  eexists. split; [apply (process_csv_valid h b i j Hi Hj)|].
  split; [apply cleaned_parsed|]. split.
  - intros k. rewrite grouped_column. now apply In_parsed_keys.
  - intros k Hk. rewrite grouped_column, In_parsed_keys by assumption.
    intros [_ [r [Hin [Hr Hn]]]]. now apply Hn, Hk.
Qed.

Lemma raw_total_bound (read : cell -> option Z) (i j : nat) (k : cell)
    (raw : list (list cell)) :
  (Z.abs (raw_total read i j k raw) <= magnitude read j raw)%Z.
Proof.
  unfold raw_total, magnitude.
  induction raw as [|r t IH]; cbn [map filter fold_right]; [lia|].
  destruct (cell_eqb (at_ i r) k); cbn [map fold_right]; lia.
Qed.

Lemma group_sum_cleaned_read (i j : nat) (b : list (list cell)) (k : cell) :
  i <> j ->
  group_sum i j k (clean j b)
  = raw_total (quantity_read text_to_number) i j k b.
Proof.
  intros Hij. rewrite (group_sum_cleaned i j b k Hij).
  unfold quantity_total, raw_total. f_equal. apply map_ext.
  intros r. apply number_of_coerce.
Qed.

Lemma group_sum_stored (i j : nat) (raw : list (list cell)) (k : cell) :
  group_sum i j k raw = raw_total stored_quantity i j k raw.
Proof.
  unfold group_sum, raw_total. f_equal. apply map_ext.
  intros r. now destruct (at_ j r).
Qed.


(** C10.  [process_csv] never raises: whatever it is given, it returns
    a frame, and that frame is the empty [pd.DataFrame()] when no file
    was given, when [pd.read_csv] fails, when the file has no column or
    when a required column is missing.  A well-formed offer none of whose
    rows holds a number comes back as an empty frame too, so [.empty],
    the test of the caller, tells the failures and such an offer apart
    in no way. *)
Theorem process_csv_never_raises (f : option UploadedFile) :
  ~ raises (normalize f) /\
  (exists log df,
     normalize f = (log, Return df) /\
     (unusable f -> df = pd_DataFrame /\ empty df = true)) /\
  (forall h b i j,
     position "ArticleNumber" h = Some i ->
     position "Quantity" h = Some j ->
     (forall r, In r b -> coerce (at_ j r) = NaN) ->
     exists df, normalize (Some (Csv h b)) = ([], Return df) /\
                empty df = true).
Proof.
  assert (R : exists log df,
             normalize f = (log, Return df) /\
             (unusable f -> df = pd_DataFrame /\ empty df = true)).
  { destruct f as [[h b|e]|].
    - destruct (has_column "ArticleNumber" h) eqn:Ha;
        [destruct (has_column "Quantity" h) eqn:Hq|].
      + destruct (has_column_position _ _ Ha) as [i Hi].
        destruct (has_column_position _ _ Hq) as [j Hj].
        rewrite (process_csv_valid h b i j Hi Hj).
        do 2 eexists. split; [reflexivity|].
        cbn [unusable]. rewrite Ha, Hq. intros [H|H]; discriminate.
      + destruct (process_csv_unusable (Some (Csv h b))) as [log Hlog].
        { cbn [unusable]. now right. }
        rewrite Hlog. do 2 eexists. split; [reflexivity|]. now split.
      + destruct (process_csv_unusable (Some (Csv h b))) as [log Hlog].
        { cbn [unusable]. now left. }
        rewrite Hlog. do 2 eexists. split; [reflexivity|]. now split.
    - destruct (process_csv_unusable (Some (Broken e)) I) as [log Hlog].
      rewrite Hlog. do 2 eexists. split; [reflexivity|]. now split.
    - destruct (process_csv_unusable None I) as [log Hlog].
      rewrite Hlog. do 2 eexists. split; [reflexivity|]. now split. }
  split; [|split; [exact R|]].
  - destruct R as [log [df [E _]]]. intros [e He].
    rewrite E in He. discriminate.
  - intros h b i j Hi Hj Hb.
    rewrite (process_csv_valid h b i j Hi Hj).
    rewrite (cleaned_nothing j b Hb). eexists. split; reflexivity.
Qed.

End ProcessCsvFacts.

(** *** The offer normaliser on concrete files *)

(** Scenario F: the row of [A1] is dropped and [A1] is not in the mapping. *)
Example process_csv_scenario_F :
  process_csv decimal (Some offer_file)
  = ([], Return (mkDataFrame ["ArticleNumber"; "Quantity"]
                   [[Str "B2"; Num 7]])).
Proof. reflexivity. Qed.

Example df_anfrage_display_example :
  df_anfrage_display request_rows
  = Return (mkDataFrame ["ArticleNumber"; "Quantity"]
              [[Str "A1"; Num 5]; [Str "B2"; Num 3]]).
Proof. reflexivity. Qed.

(** C4, as the claim states it, fails: without the [Quantity] column the
    call returns instead of raising. *)
Lemma process_csv_missing_column_returns :
  ~ raises (process_csv decimal (Some (Csv ["ArticleNumber"] [[Str "A1"]])))
  /\ returns (process_csv decimal (Some (Csv ["ArticleNumber"] [[Str "A1"]])))
             pd_DataFrame.
Proof.
  split; [|reflexivity]. intros [e He]. discriminate He.
Qed.

Lemma process_csv_missing_column_witness :
  process_csv decimal (Some (Csv ["ArticleNumber"] [[Str "A1"]]))
  = ([error "Le fichier CSV doit contenir les colonnes 'ArticleNumber' et 'Quantity'."],
     Return pd_DataFrame).
Proof.
  apply (process_csv_missing_column decimal ["ArticleNumber"] [[Str "A1"]]).
  right. reflexivity.
Defined.

(** C5, as the claim states it, fails: a header without data rows gives
    a mapping without article, not an error. *)
Lemma process_csv_header_only_returns :
  ~ raises (process_csv decimal (Some (Csv ["ArticleNumber"; "Quantity"] [])))
  /\ returns (process_csv decimal (Some (Csv ["ArticleNumber"; "Quantity"] [])))
             (mkDataFrame ["ArticleNumber"; "Quantity"] []).
Proof.
  split; [|reflexivity]. intros [e He]. discriminate He.
Qed.

Lemma process_csv_header_only_witness :
  process_csv decimal (Some (Csv ["Quantity"; "ArticleNumber"] []))
  = ([], Return (mkDataFrame ["ArticleNumber"; "Quantity"] [])).
Proof.
  apply (process_csv_header_only decimal ["Quantity"; "ArticleNumber"]);
    reflexivity.
Defined.

Lemma process_csv_drops_unparseable_witness :
  exists out,
    process_csv decimal (Some offer_file) = ([], Return out) /\
    cleaned decimal 1 offer_rows
    = map (update 1 (to_numeric decimal))
          (filter (fun r => parses decimal (at_ 1 r)) offer_rows) /\
    (forall k,
       In k (column "ArticleNumber" out) <->
       notna k = true /\
       exists r,
         In r offer_rows
         /\ at_ 0 r = k /\ quantity_read decimal (at_ 1 r) <> None) /\
    (forall k,
       (forall r,
          In r offer_rows ->
          at_ 0 r = k -> quantity_read decimal (at_ 1 r) = None) ->
       ~ In k (column "ArticleNumber" out)).
Proof.
  apply (process_csv_drops_unparseable decimal
           ["ArticleNumber"; "Quantity"]
           offer_rows
           0 1); reflexivity.
Defined.



Lemma process_csv_never_raises_witness :
  (exists log df,
     process_csv decimal (Some (Broken (Exception "boom")))
     = (log, Return df) /\ df = pd_DataFrame /\ empty df = true) /\
  (exists df,
     process_csv decimal
       (Some (Csv ["ArticleNumber"; "Quantity"] [[Str "A1"; Str "abc"]]))
     = ([], Return df) /\ empty df = true).
Proof.
  destruct (process_csv_never_raises decimal
              (Some (Broken (Exception "boom")))) as [_ [H1 H2]].
  split.
  - destruct H1 as [log [df [E H]]].
    exists log, df. split; [exact E|]. exact (H I).
  - apply (H2 ["ArticleNumber"; "Quantity"] [[Str "A1"; Str "abc"]] 0%nat 1%nat);
      try reflexivity.
    intros r [<-|[]]. reflexivity.
Defined.

(** ** The comparator, [compare_data] *)


(** *** The classification of one row *)

Lemma Resultat_unclassified (rq oq : Z) :
  Resultat (Num rq) (Num oq) = UnclassifiedError <->
  ~ ((0 < rq /\ 0 < oq) \/ (0 < rq /\ oq = 0) \/ (rq = 0 /\ 0 < oq))%Z.
Proof.
  unfold Resultat, conditions, results. cbn [gt0 eq0 eq_cells].
  destruct (Z.ltb_spec 0 rq), (Z.ltb_spec 0 oq), (Z.eqb_spec rq oq),
    (Z.eqb_spec rq 0), (Z.eqb_spec oq 0);
    cbn [np_select andb negb]; try lia;
    split; intros; try discriminate; try lia; try reflexivity;
    exfalso; lia.
Qed.

(** *** The merge of two canonical mappings *)

Lemma frame_of_keys (m : list (cell * Z)) :
  map (at_ 0) (rows (frame_of m)) = map fst m.
Proof. unfold frame_of. cbn [rows]. rewrite map_map. now apply map_ext. Qed.

Lemma get_absent (m : list (cell * Z)) (k : cell) :
  ~ In k (map fst m) -> get m k = 0%Z.
Proof.
  induction m as [|[k' q] t IH]; cbn [get map fst In]; intros H; [reflexivity|].
  destruct (cell_eqb k' k) eqn:E.
  - apply cell_eqb_eq in E. tauto.
  - apply IH. tauto.
Qed.

Lemma rows_of_absent (m : list (cell * Z)) (k : cell) :
  ~ In k (map fst m) ->
  filter (fun r => cell_eqb (at_ 0 r) k) (rows (frame_of m)) = [].
Proof.
  unfold frame_of. cbn [rows].
  induction m as [|[k' q] t IH]; cbn [map filter fst snd In]; intros H;
    [reflexivity|].
  change (at_ 0 [k'; Num q]) with k'.
  destruct (cell_eqb k' k) eqn:E.
  - apply cell_eqb_eq in E. tauto.
  - apply IH. tauto.
Qed.

Lemma rows_of_present (m : list (cell * Z)) (k : cell) :
  NoDup (map fst m) -> In k (map fst m) ->
  filter (fun r => cell_eqb (at_ 0 r) k) (rows (frame_of m))
  = [[k; Num (get m k)]].
Proof.
  intros Hnd. induction m as [|[k' q] t IH]; cbn [map fst In]; [tauto|].
  cbn [map fst] in Hnd. apply NoDup_cons_iff in Hnd. destruct Hnd as [Hk' Hnd].
  intros Hin.
  change (rows (frame_of ((k', q) :: t)))
    with ([k'; Num q] :: rows (frame_of t)).
  cbn [filter get]. change (at_ 0 [k'; Num q]) with k'.
  destruct (cell_eqb k' k) eqn:E.
  - apply cell_eqb_eq in E. subst k'.
    now rewrite (rows_of_absent t k Hk').
  - apply cell_eqb_neq in E. destruct Hin as [Hin|Hin]; [congruence|].
    now apply IH.
Qed.

Lemma map_flat_map_single {A B C : Type} (F : A -> list B) (c : B -> C)
    (g : A -> C) (l : list A) :
  (forall x, In x l -> map c (F x) = [g x]) ->
  map c (flat_map F l) = map g l.
Proof.
  induction l as [|x t IH]; cbn [flat_map map]; intros H; [reflexivity|].
  rewrite map_app, (H x (or_introl eq_refl)), IH; [reflexivity|].
  intros y Hy. apply H. now right.
Qed.

Lemma In_union_keys (requested offered : list (cell * Z)) (k : cell) :
  In k (union_keys requested offered) <->
  In k (map fst requested) \/ In k (map fst offered).
Proof. unfold union_keys. now rewrite In_unique, in_app_iff. Qed.

Lemma existsb_flat_map_none {A B : Type} (F : A -> list B) (p : B -> bool)
    (l : list A) :
  (forall x, In x l -> existsb p (F x) = false) ->
  existsb p (flat_map F l) = false.
Proof.
  induction l as [|x t IH]; cbn [flat_map existsb]; intros H; [reflexivity|].
  rewrite existsb_app, (H x (or_introl eq_refl)), IH; [reflexivity|].
  intros y Hy. apply H. now right.
Qed.

(** What the statements of lines 128-162 do with two canonical
    mappings: the merge raises when the articles of one are numbers and
    those of the other texts; otherwise they build the row of every
    article of the union, once. *)
Lemma merge_and_classify_cases (key_order : list cell -> list cell)
    (requested offered : list (cell * Z)) :
  (forall l, Permutation (key_order l) l) ->
  NoDup (map fst requested) -> NoDup (map fst offered) ->
  merge_and_classify key_order (frame_of requested) (frame_of offered)
  = if incompatible (map fst requested) (map fst offered)
    then Raise (ValueError "You are trying to merge on int64 and object columns. If you wish to proceed you should use pd.concat")
    else Return (mkDataFrame cols_order
                   (map (report_row requested offered)
                        (key_order (union_keys requested offered)))).
Proof.
  intros Hperm Hr Ho. unfold merge_and_classify, merge.
  cbn [rename frame_of columns rows map position String.eqb Ascii.eqb
       Bool.eqb option_map].
  change (map (fun kq : cell * Z => [fst kq; Num (snd kq)]) requested)
    with (rows (frame_of requested)).
  change (map (fun kq : cell * Z => [fst kq; Num (snd kq)]) offered)
    with (rows (frame_of offered)).
  rewrite !frame_of_keys. fold (union_keys requested offered).
  destruct (incompatible (map fst requested) (map fst offered));
    [reflexivity|].
  cbn [rows].
  match goal with
  | |- context [flat_map ?F (key_order _)] => set (paired := F)
  end.
  assert (Hrow : forall k,
             In k (key_order (union_keys requested offered)) ->
             paired k
             = [[k;
                 if in_dec cell_eq_dec k (map fst requested)
                 then Num (get requested k) else NaN;
                 if in_dec cell_eq_dec k (map fst offered)
                 then Num (get offered k) else NaN]]
             /\ (In k (map fst requested) \/ In k (map fst offered))).
  { intros k Hk.
    apply (Permutation_in _ (Hperm _)), In_union_keys in Hk.
    split; [|exact Hk]. unfold paired.
    destruct (in_dec cell_eq_dec k (map fst requested)) as [Ir|Nr];
      destruct (in_dec cell_eq_dec k (map fst offered)) as [Io|No].
    - rewrite (rows_of_present requested k Hr Ir),
        (rows_of_present offered k Ho Io). reflexivity.
    - rewrite (rows_of_present requested k Hr Ir),
        (rows_of_absent offered k No). reflexivity.
    - rewrite (rows_of_absent requested k Nr),
        (rows_of_present offered k Ho Io). reflexivity.
    - tauto. }
  rewrite existsb_flat_map_none.
  - f_equal. f_equal. apply map_flat_map_single. intros k Hk.
    destruct (Hrow k Hk) as [-> Hin]. unfold report_row.
    destruct (in_dec cell_eq_dec k (map fst requested)) as [Ir|Nr];
      destruct (in_dec cell_eq_dec k (map fst offered)) as [Io|No];
      rewrite ?(get_absent requested k Nr), ?(get_absent offered k No);
      reflexivity.
  - intros k Hk. destruct (Hrow k Hk) as [-> _].
    destruct (in_dec cell_eq_dec k (map fst requested));
      destruct (in_dec cell_eq_dec k (map fst offered)); reflexivity.
Qed.

(** The report the statements of lines 128-162 build from two canonical
    mappings when they return. *)
Lemma merge_and_classify_report (key_order : list cell -> list cell)
    (requested offered : list (cell * Z)) (out : DataFrame) :
  (forall l, Permutation (key_order l) l) ->
  NoDup (map fst requested) -> NoDup (map fst offered) ->
  merge_and_classify key_order (frame_of requested) (frame_of offered)
  = Return out ->
  out = mkDataFrame cols_order
          (map (report_row requested offered)
               (key_order (union_keys requested offered))).
Proof.
  intros Hperm Hr Ho. rewrite merge_and_classify_cases by assumption.
  destruct (incompatible (map fst requested) (map fst offered));
    [discriminate|]. now intros [= <-].
Qed.

Lemma merge_and_classify_compatible (key_order : list cell -> list cell)
    (requested offered : list (cell * Z)) :
  (forall l, Permutation (key_order l) l) ->
  NoDup (map fst requested) -> NoDup (map fst offered) ->
  incompatible (map fst requested) (map fst offered) = false ->
  merge_and_classify key_order (frame_of requested) (frame_of offered)
  = Return (mkDataFrame cols_order
              (map (report_row requested offered)
                   (key_order (union_keys requested offered)))).
Proof.
  intros Hperm Hr Ho Hc. rewrite merge_and_classify_cases by assumption.
  now rewrite Hc.
Qed.

Lemma report_column (requested offered : list (cell * Z)) (keys : list cell) :
  column "ArticleNumber"
    (mkDataFrame cols_order (map (report_row requested offered) keys))
  = keys.
Proof.
  unfold column. cbn [columns rows cols_order position String.eqb Ascii.eqb
                      Bool.eqb].
  rewrite map_map. apply map_id.
Qed.

(** Behind the [return] of line 126 the statements do build one row per
    article of the union, whatever order the merge gives to the keys,
    unless the merge raises. *)
Lemma merge_and_classify_union (key_order : list cell -> list cell)
    (requested offered : list (cell * Z)) :
  (forall l, Permutation (key_order l) l) ->
  NoDup (map fst requested) -> NoDup (map fst offered) ->
  incompatible (map fst requested) (map fst offered) = false ->
  exists out,
    merge_and_classify key_order (frame_of requested) (frame_of offered)
    = Return out /\
    NoDup (column "ArticleNumber" out) /\
    List.length (rows out) = List.length (union_keys requested offered) /\
    forall k, In k (column "ArticleNumber" out) <->
              In k (map fst requested) \/ In k (map fst offered).
Proof.
  intros Hperm Hr Ho Hc. eexists.
  split; [now apply merge_and_classify_compatible|].
  rewrite report_column. cbn [rows]. rewrite length_map.
  split; [|split].
  - apply (Permutation_NoDup (Permutation_sym (Hperm _))), NoDup_unique.
  - now apply Permutation_length.
  - intros k. rewrite <- In_union_keys.
    split; apply Permutation_in; [|symmetry]; apply Hperm.
Qed.

(** *** The order of the keys when the merge keeps the order of appearance *)

Lemma filter_all {A : Type} (f : A -> bool) (l : list A) :
  (forall x, In x l -> f x = true) -> filter f l = l.
Proof.
  induction l as [|x t IH]; cbn [filter]; intros H; [reflexivity|].
  rewrite (H x (or_introl eq_refl)), IH; [reflexivity|].
  intros y Hy. apply H. now right.
Qed.

Lemma unique_NoDup (l : list cell) : NoDup l -> unique l = l.
Proof.
  induction 1 as [|x t Hx Hnd IH]; cbn [unique]; [reflexivity|].
  rewrite IH. f_equal. apply filter_all. intros y Hy.
  apply negb_true_iff, cell_eqb_neq. congruence.
Qed.

Lemma cell_eqb_sym (a b : cell) : cell_eqb a b = cell_eqb b a.
Proof.
  destruct (cell_eqb b a) eqn:E.
  - apply cell_eqb_eq in E. subst. apply cell_eqb_refl.
  - apply cell_eqb_neq. apply cell_eqb_neq in E. congruence.
Qed.

Lemma filter_excluding (x : cell) (t l : list cell) :
  filter (fun y => negb (cell_eqb x y))
    (filter (fun k => negb (existsb (cell_eqb k) t)) l)
  = filter (fun k => negb (existsb (cell_eqb k) (x :: t))) l.
Proof.
  induction l as [|y u IH]; cbn [filter existsb]; [reflexivity|].
  rewrite (cell_eqb_sym y x).
  destruct (existsb (cell_eqb y) t) eqn:Et, (cell_eqb x y) eqn:Exy;
    cbn [negb orb filter]; rewrite ?Exy; cbn [negb filter existsb] in *;
    rewrite IH; reflexivity.
Qed.

Lemma unique_app (l1 l2 : list cell) :
  unique (l1 ++ l2)
  = unique l1
    ++ filter (fun k => negb (existsb (cell_eqb k) l1)) (unique l2).
Proof.
  induction l1 as [|x t IH]; cbn [app unique].
  - symmetry. now apply filter_all.
  - rewrite IH, filter_app, filter_excluding. reflexivity.
Qed.

(** With the keys in order of appearance, the articles come out as those
    of [requested], in its order, then those of [offered] not yet seen. *)
Lemma merge_and_classify_order (requested offered : list (cell * Z)) :
  NoDup (map fst requested) -> NoDup (map fst offered) ->
  incompatible (map fst requested) (map fst offered) = false ->
  exists out,
    merge_and_classify (fun l => l) (frame_of requested) (frame_of offered)
    = Return out /\
    column "ArticleNumber" out
    = map fst requested
      ++ filter (fun k => negb (existsb (cell_eqb k) (map fst requested)))
           (map fst offered).
Proof.
  intros Hr Ho Hc. eexists. split.
  - apply (merge_and_classify_compatible (fun l => l)); auto.
  - rewrite report_column. unfold union_keys.
    now rewrite unique_app, !unique_NoDup.
Qed.

(** With sorted keys the order is another one. *)
Example merge_and_classify_sorted :
  merge_and_classify sort_values
    (frame_of [(Str "B2", 5%Z)]) (frame_of [(Str "A1", 2%Z)])
  = Return (mkDataFrame cols_order
              [ [Str "A1"; Num 0; Num 2; Str ExtraInOffer];
                [Str "B2"; Num 5; Num 0; Str MissingFromOffer] ]).
Proof. reflexivity. Qed.

(** *** The rows of the report *)

Lemma report_rows (key_order : list cell -> list cell)
    (requested offered : list (cell * Z)) (out : DataFrame)
    (row : list cell) :
  (forall l, Permutation (key_order l) l) ->
  NoDup (map fst requested) -> NoDup (map fst offered) ->
  merge_and_classify key_order (frame_of requested) (frame_of offered)
  = Return out ->
  In row (rows out) ->
  exists k,
    (In k (map fst requested) \/ In k (map fst offered)) /\
    row = report_row requested offered k.
Proof.
  intros Hperm Hr Ho Hout Hin.
  apply merge_and_classify_report in Hout; try assumption. subst out.
  cbn [rows] in Hin.
  apply in_map_iff in Hin. destruct Hin as [k [<- Hk]].
  exists k. split; [|reflexivity].
  now apply In_union_keys, (Permutation_in _ (Hperm _)).
Qed.

(** *** The file as it is *)






(** C1, on Scenario A.  The report of [compare_data] has no row for the
    article [A1] of the union: it has no row at all. *)
Theorem compare_data_scenario_A :
  compare_data (frame_of [(Str "A1", 5%Z)]) (frame_of [(Str "A1", 5%Z)])
  = ([], Return pd_DataFrame)
  /\ column "ArticleNumber" pd_DataFrame = []
  /\ union_keys [(Str "A1", 5%Z)] [(Str "A1", 5%Z)] = [Str "A1"].
Proof. repeat split. Qed.

(** C8, on a request of [A1] and an offer of [B2].  The claimed order of
    the articles is [A1] then [B2]; the report of [compare_data] lists
    no article. *)
Theorem compare_data_lists_no_article :
  compare_data (frame_of [(Str "A1", 5%Z)]) (frame_of [(Str "B2", 2%Z)])
  = ([], Return pd_DataFrame)
  /\ column "ArticleNumber" pd_DataFrame = []
  /\ map fst [(Str "A1", 5%Z)]
     ++ filter (fun k => negb (existsb (cell_eqb k)
                                 (map fst [(Str "A1", 5%Z)])))
          (map fst [(Str "B2", 2%Z)])
     = [Str "A1"; Str "B2"].
Proof. repeat split. Qed.

(** *** The classification of lines 140-156 on concrete mappings *)

Ltac distinct_keys := repeat constructor; cbn; intuition discriminate.

Ltac quantities := repeat constructor; cbn; lia.

(** Scenarios A to D, on the statements of lines 128-162. *)
Example merge_and_classify_scenarios :
  merge_and_classify sort_values
    (frame_of [(Str "A1", 5%Z)]) (frame_of [(Str "A1", 5%Z)])
  = Return (mkDataFrame cols_order [[Str "A1"; Num 5; Num 5; Str Match]])
  /\ merge_and_classify sort_values
       (frame_of [(Str "A1", 5%Z)]) (frame_of [(Str "A1", 3%Z)])
     = Return (mkDataFrame cols_order
                 [[Str "A1"; Num 5; Num 3; Str QuantityMismatch]])
  /\ merge_and_classify sort_values
       (frame_of [(Str "A1", 5%Z)]) (frame_of [])
     = Return (mkDataFrame cols_order
                 [[Str "A1"; Num 5; Num 0; Str MissingFromOffer]])
  /\ merge_and_classify sort_values
       (frame_of []) (frame_of [(Str "B2", 2%Z)])
     = Return (mkDataFrame cols_order
                 [[Str "B2"; Num 0; Num 2; Str ExtraInOffer]]).
Proof. repeat split. Qed.



(** * Further properties *)

(** ** The order of the group keys *)

Lemma ascii_compare_refl (a : ascii) : Ascii.compare a a = Eq.
Proof. unfold Ascii.compare. apply N.compare_refl. Qed.

Lemma ascii_compare_lt_trans (a b c : ascii) :
  Ascii.compare a b = Lt -> Ascii.compare b c = Lt -> Ascii.compare a c = Lt.
Proof.
  unfold Ascii.compare. rewrite !N.compare_lt_iff. apply N.lt_trans.
Qed.

Lemma string_compare_refl (s : string) : String.compare s s = Eq.
Proof.
  induction s as [|a s IH]; cbn [String.compare]; [reflexivity|].
  now rewrite ascii_compare_refl.
Qed.

Lemma string_compare_lt_trans (s1 s2 s3 : string) :
  String.compare s1 s2 = Lt -> String.compare s2 s3 = Lt ->
  String.compare s1 s3 = Lt.
Proof.
  revert s2 s3.
  induction s1 as [|a s1 IH]; intros [|b s2] [|c s3];
    cbn [String.compare]; try discriminate; try reflexivity.
  destruct (Ascii.compare a b) eqn:Eab;
    destruct (Ascii.compare b c) eqn:Ebc; try discriminate.
  - apply Ascii.compare_eq_iff in Eab, Ebc. subst.
    rewrite ascii_compare_refl. apply IH.
  - apply Ascii.compare_eq_iff in Eab. subst. now rewrite Ebc.
  - apply Ascii.compare_eq_iff in Ebc. subst. now rewrite Eab.
  - now rewrite (ascii_compare_lt_trans a b c Eab Ebc).
Qed.

Lemma string_leb_trans (s1 s2 s3 : string) :
  String.leb s1 s2 = true -> String.leb s2 s3 = true ->
  String.leb s1 s3 = true.
Proof.
  unfold String.leb.
  destruct (String.compare s1 s2) eqn:E12; try discriminate;
    destruct (String.compare s2 s3) eqn:E23; try discriminate; intros _ _.
  - apply String.compare_eq_iff in E12, E23. subst.
    now rewrite string_compare_refl.
  - apply String.compare_eq_iff in E12. subst. now rewrite E23.
  - apply String.compare_eq_iff in E23. subst. now rewrite E12.
  - now rewrite (string_compare_lt_trans s1 s2 s3 E12 E23).
Qed.

Lemma cell_leb_total (a b : cell) : cell_leb a b = true \/ cell_leb b a = true.
Proof.
  destruct a as [|x|x], b as [|y|y]; cbn [cell_leb]; auto.
  - destruct (Z.leb_spec x y), (Z.leb_spec y x); auto; lia.
  - apply String.leb_total.
Qed.

Lemma cell_leb_trans (a b c : cell) :
  cell_leb a b = true -> cell_leb b c = true -> cell_leb a c = true.
Proof.
  destruct a as [|x|x], b as [|y|y], c as [|z|z]; cbn [cell_leb];
    try discriminate; auto.
  - rewrite !Z.leb_le. lia.
  - apply string_leb_trans.
Qed.

Lemma cell_leb_antisym (a b : cell) :
  cell_leb a b = true -> cell_leb b a = true -> a = b.
Proof.
  destruct a as [|x|x], b as [|y|y]; cbn [cell_leb];
    try discriminate; auto.
  - rewrite !Z.leb_le. intros. f_equal. lia.
  - intros H1 H2. f_equal. now apply String.leb_antisym.
Qed.

Lemma insert_sorted_ascending (k : cell) (l : list cell) :
  ascending l -> ascending (insert_sorted k l).
Proof.
  unfold ascending. induction 1 as [|h t Ht IH Hh]; cbn [insert_sorted].
  - repeat constructor.
  - destruct (cell_leb k h) eqn:E.
    + constructor; [now constructor|]. constructor; [assumption|].
      apply Forall_forall. intros y Hy.
      rewrite Forall_forall in Hh. eapply cell_leb_trans; eauto.
    + constructor; [assumption|].
      apply Forall_forall. intros y Hy.
      apply (Permutation_in _ (insert_sorted_perm k t)) in Hy.
      destruct Hy as [<-|Hy].
      * destruct (cell_leb_total k h); congruence.
      * rewrite Forall_forall in Hh. auto.
Qed.

Lemma sort_values_ascending (l : list cell) : ascending (sort_values l).
Proof.
  induction l as [|x t IH]; cbn [sort_values fold_right].
  - constructor.
  - now apply insert_sorted_ascending.
Qed.

Lemma ascending_unique (l l' : list cell) :
  ascending l -> ascending l' -> Permutation l l' -> l = l'.
Proof.
  unfold ascending. intros Hl. revert l'.
  induction Hl as [|a t Ht IH Ha]; intros l' Hl' P.
  - now apply Permutation_nil in P.
  - destruct Hl' as [|b u Hu Hb].
    + symmetry in P. now apply Permutation_nil in P.
    + assert (a = b).
      { rewrite Forall_forall in Ha, Hb.
        assert (Ia : In a (b :: u))
          by (apply (Permutation_in _ P); now left).
        assert (Ib : In b (a :: t))
          by (apply (Permutation_in _ (Permutation_sym P)); now left).
        destruct Ia as [->|Ia]; [reflexivity|].
        destruct Ib as [->|Ib]; [reflexivity|].
        apply cell_leb_antisym; auto. }
      subst b. f_equal. apply IH; [assumption|].
      now apply Permutation_cons_inv in P.
Qed.

Lemma sort_values_permutation (l l' : list cell) :
  Permutation l l' -> sort_values l = sort_values l'.
Proof.
  intros P. apply ascending_unique; try apply sort_values_ascending.
  now rewrite !sort_values_perm.
Qed.


(** ** Sums and permutations *)

Lemma filter_permutation {A : Type} (f : A -> bool) (l l' : list A) :
  Permutation l l' -> Permutation (filter f l) (filter f l').
Proof.
  induction 1 as [|x l l' _ IH|x y l|l l' l'' _ IH1 _ IH2]; cbn [filter].
  - constructor.
  - destruct (f x); [now constructor|assumption].
  - destruct (f x), (f y); try reflexivity. apply perm_swap.
  - now transitivity (filter f l').
Qed.

Lemma sum_permutation (l l' : list Z) :
  Permutation l l' -> fold_right Z.add 0%Z l = fold_right Z.add 0%Z l'.
Proof.
  induction 1; cbn [fold_right]; lia.
Qed.

Lemma unique_permutation (l l' : list cell) :
  Permutation l l' -> Permutation (unique l) (unique l').
Proof.
  intros P. apply NoDup_Permutation; try apply NoDup_unique.
  intros k. rewrite !In_unique.
  split; apply Permutation_in; [assumption|now symmetry].
Qed.

Lemma group_keys_permutation (i : nat) (rs rs' : list (list cell)) :
  Permutation rs rs' -> group_keys i rs = group_keys i rs'.
Proof.
  intros P. unfold group_keys. apply sort_values_permutation.
  apply unique_permutation, filter_permutation. now apply Permutation_map.
Qed.

Lemma raw_total_permutation (read : cell -> option Z) (i j : nat)
    (k : cell) (rs rs' : list (list cell)) :
  Permutation rs rs' -> raw_total read i j k rs = raw_total read i j k rs'.
Proof.
  intros P. unfold raw_total. apply sum_permutation.
  apply Permutation_map. now apply filter_permutation.
Qed.

Lemma magnitude_permutation (read : cell -> option Z) (j : nat)
    (rs rs' : list (list cell)) :
  Permutation rs rs' -> magnitude read j rs = magnitude read j rs'.
Proof.
  intros P. unfold magnitude. apply sum_permutation.
  now apply Permutation_map.
Qed.

Lemma sum_add {A : Type} (f g : A -> Z) (l : list A) :
  fold_right Z.add 0%Z (map (fun x => (f x + g x)%Z) l)
  = (fold_right Z.add 0%Z (map f l) + fold_right Z.add 0%Z (map g l))%Z.
Proof. induction l as [|x t IH]; cbn [map fold_right]; lia. Qed.

Lemma sum_indicator (x : cell) (v : Z) (keys : list cell) :
  NoDup keys ->
  fold_right Z.add 0%Z
    (map (fun k => if cell_eqb x k then v else 0%Z) keys)
  = if existsb (cell_eqb x) keys then v else 0%Z.
Proof.
  induction 1 as [|k t Hk Hnd IH]; cbn [map fold_right existsb];
    [reflexivity|].
  rewrite IH. destruct (cell_eqb x k) eqn:E; cbn [orb]; [|lia].
  apply cell_eqb_eq in E. subst k.
  destruct (existsb (cell_eqb x) t) eqn:Et; [|lia].
  apply existsb_exists in Et. destruct Et as [y [Hy Ey]].
  apply cell_eqb_eq in Ey. subst y. tauto.
Qed.

(** Summing the totals of distinct articles counts every raw row of one
    of these articles once. *)
Lemma totals_partition (quantity : list cell -> Z)
    (article : list cell -> cell) (keys : list cell)
    (raw : list (list cell)) :
  NoDup keys ->
  fold_right Z.add 0%Z
    (map (fun k => quantity_total quantity article k raw) keys)
  = fold_right Z.add 0%Z
      (map (fun r => if existsb (cell_eqb (article r)) keys
                     then quantity r else 0%Z) raw).
Proof.
  intros Hnd. induction raw as [|r t IH]; cbn [map fold_right].
  - unfold quantity_total. cbn [filter map fold_right].
    induction keys as [|k ks IHk]; cbn [map fold_right]; [reflexivity|].
    apply NoDup_cons_iff in Hnd. now rewrite IHk.
  - rewrite <- IH, <- (sum_indicator (article r) (quantity r) keys Hnd),
      <- sum_add.
    f_equal. apply map_ext. intros k. unfold quantity_total.
    cbn [filter]. now destruct (cell_eqb (article r) k).
Qed.

(** ** More on the offer normaliser *)

Section OfferFacts.

Variable text_to_number : string -> option Z.

Local Abbreviation coerce := (to_numeric text_to_number).
Local Abbreviation normalize := (process_csv text_to_number).
Local Abbreviation clean := (cleaned text_to_number).

Lemma clean_permutation (j : nat) (b b' : list (list cell)) :
  Permutation b b' -> Permutation (clean j b) (clean j b').
Proof.
  intros P. unfold cleaned. apply filter_permutation.
  now apply Permutation_map.
Qed.

Lemma required_columns (h : list string) :
  (exists i j, position "ArticleNumber" h = Some i
               /\ position "Quantity" h = Some j)
  \/ (has_column "ArticleNumber" h = false
      \/ has_column "Quantity" h = false).
Proof.
  destruct (has_column "ArticleNumber" h) eqn:Ha; [|now right; left].
  destruct (has_column "Quantity" h) eqn:Hq; [|now right; right].
  left. destruct (has_column_position _ _ Ha) as [i Hi].
  destruct (has_column_position _ _ Hq) as [j Hj]. eauto.
Qed.

(** The shape of what [process_csv] returns: the empty frame, or a
    frame of distinct, present, ascending articles. *)
Lemma process_csv_shape (f : option UploadedFile) :
  (exists log, normalize f = (log, Return pd_DataFrame))
  \/ (exists total keys,
        normalize f = ([], Return (grouped total keys)) /\
        ascending keys /\ NoDup keys /\
        forall k, In k keys -> notna k = true).
Proof.
  destruct f as [[h b|e]|];
    try (left; apply process_csv_unusable; exact I).
  destruct (required_columns h) as [[i [j [Hi Hj]]]|H].
  - right. do 2 eexists. split; [apply (process_csv_valid _ h b i j Hi Hj)|].
    split; [apply sort_values_ascending|].
    split; [apply NoDup_group_keys|].
    intros k Hk. now apply In_group_keys in Hk.
  - left. now apply process_csv_unusable.
Qed.






Lemma sum_filter {A : Type} (p : A -> bool) (q : A -> Z) (l : list A) :
  fold_right Z.add 0%Z (map (fun x => if p x then q x else 0%Z) l)
  = fold_right Z.add 0%Z (map q (filter p l)).
Proof.
  induction l as [|x t IH]; cbn [map filter fold_right]; [reflexivity|].
  destruct (p x); cbn [map fold_right]; lia.
Qed.

Lemma process_csv_without_column (h : list string) (b b' : list (list cell)) :
  has_column "ArticleNumber" h = false \/ has_column "Quantity" h = false ->
  normalize (Some (Csv h b)) = normalize (Some (Csv h b')).
Proof.
  intros H. destruct h as [|c cs]; [reflexivity|].
  unfold process_csv, read_csv, lift, bind, try_except. cbn [columns].
  assert (E : negb (has_column "ArticleNumber" (c :: cs))
              || negb (has_column "Quantity" (c :: cs)) = true).
  { destruct H as [-> | ->]; [reflexivity|apply orb_true_r]. }
  now rewrite E.
Qed.

Lemma cleaned_total_small (kind : dtype) (i j : nat)
    (b : list (list cell)) (k : cell) :
  i <> j ->
  (magnitude (quantity_read text_to_number) j b <= 2 ^ 53)%Z ->
  typed kind (group_sum i j k (clean j b))
  = raw_total (quantity_read text_to_number) i j k b.
Proof.
  intros Hij Hb. rewrite (group_sum_cleaned_read text_to_number i j b k Hij).
  apply typed_small. etransitivity; [apply raw_total_bound|exact Hb].
Qed.

(** X1.  The order of the data rows of the offer does not matter as
    long as the absolute values of the quantities add up to at most
    2^53: two files with the same header whose rows are a permutation of
    each other give the same messages and the same mapping. *)
Theorem process_csv_row_order (h : list string) (b b' : list (list cell)) :
  Permutation b b' ->
  (forall j, position "Quantity" h = Some j ->
             (magnitude (quantity_read text_to_number) j b <= 2 ^ 53)%Z) ->
  normalize (Some (Csv h b)) = normalize (Some (Csv h b')).
Proof.
  intros P Hb. destruct (required_columns h) as [[i [j [Hi Hj]]]|H].
  - assert (Hij := required_columns_distinct h i j Hi Hj).
    assert (Hb' : (magnitude (quantity_read text_to_number) j b'
                   <= 2 ^ 53)%Z).
    { rewrite <- (magnitude_permutation _ j b b' P). now apply Hb. }
    rewrite !(process_csv_valid _ h _ i j Hi Hj).
    rewrite (group_keys_permutation i _ _ (clean_permutation j b b' P)).
    do 2 f_equal. apply grouped_ext. intros k.
    rewrite !cleaned_total_small by auto.
    now apply raw_total_permutation.
  - apply process_csv_without_column. exact H.
Qed.



(** X3.  Whatever the file, the mapping [process_csv] returns lists its
    articles in ascending order, each of them once, none of them
    missing. *)
Theorem process_csv_ascending (f : option UploadedFile) :
  exists log out,
    normalize f = (log, Return out) /\
    ascending (column "ArticleNumber" out) /\
    NoDup (column "ArticleNumber" out) /\
    Forall (fun k => notna k = true) (column "ArticleNumber" out).
Proof.
  destruct (process_csv_shape f)
    as [[log E]|[total [keys [E [Ha [Hnd Hna]]]]]].
  - exists log, pd_DataFrame. split; [exact E|].
    cbn. repeat constructor.
  - exists [], (grouped total keys). split; [exact E|].
    rewrite grouped_column. repeat split; try assumption.
    now apply Forall_forall.
Qed.


Lemma grouped_quantity_column (total : cell -> Z) (keys : list cell) :
  column "Quantity" (grouped total keys) = map Num (map total keys).
Proof.
  unfold column, grouped. cbn [columns rows position String.eqb Ascii.eqb
                               Bool.eqb option_map].
  rewrite !map_map. now apply map_ext.
Qed.

(** X5.  With both required columns present and quantities whose
    absolute values add up to at most 2^53, the quantities of the
    mapping [process_csv] returns are numbers that add up to the sum of
    the quantities parsed in the rows that bear an article: aggregation
    neither loses nor invents quantity. *)
Theorem process_csv_total (h : list string) (b : list (list cell))
    (i j : nat) :
  position "ArticleNumber" h = Some i ->
  position "Quantity" h = Some j ->
  (magnitude (quantity_read text_to_number) j b <= 2 ^ 53)%Z ->
  exists out quantities,
    normalize (Some (Csv h b)) = ([], Return out) /\
    column "Quantity" out = map Num quantities /\
    fold_right Z.add 0%Z quantities
    = fold_right Z.add 0%Z
        (map (fun r => amount (quantity_read text_to_number (at_ j r)))
             (filter (fun r => notna (at_ i r)) b)).
Proof.
  intros Hi Hj Hb.
  assert (Hij := required_columns_distinct h i j Hi Hj).
  do 2 eexists. split; [apply (process_csv_valid _ h b i j Hi Hj)|].
  rewrite (grouped_ext _
             (fun k => raw_total (quantity_read text_to_number) i j k b))
    by (intros k; now apply cleaned_total_small).
  split; [apply grouped_quantity_column|].
  change (fun k => raw_total (quantity_read text_to_number) i j k b)
    with (fun k =>
            quantity_total
              (fun r => amount (quantity_read text_to_number (at_ j r)))
              (at_ i) k b).
  rewrite (totals_partition _ _ _ b (NoDup_group_keys i (clean j b))).
  rewrite <- sum_filter. f_equal. apply map_ext_in. intros r Hr.
  assert (K := In_parsed_keys text_to_number i j b (at_ i r) Hij).
  destruct (existsb (cell_eqb (at_ i r)) (group_keys i (clean j b))) eqn:Ex.
  - apply existsb_exists in Ex. destruct Ex as [k [Hk Ek]].
    apply cell_eqb_eq in Ek. subst k.
    now rewrite (proj1 (proj1 K Hk)).
  - destruct (notna (at_ i r)) eqn:En; [|reflexivity].
    destruct (quantity_read text_to_number (at_ j r)) as [n|] eqn:Eq;
      [|reflexivity].
    exfalso.
    assert (Hin : In (at_ i r) (group_keys i (clean j b))).
    { apply K. split; [reflexivity|]. exists r.
      repeat split; [assumption|]. rewrite Eq. discriminate. }
    assert (Ex' : existsb (cell_eqb (at_ i r))
                    (group_keys i (clean j b)) = true).
    { apply existsb_exists. exists (at_ i r).
      split; [assumption|apply cell_eqb_refl]. }
    congruence.
Qed.

End OfferFacts.

Lemma process_csv_row_order_witness :
  process_csv decimal (Some (Csv ["ArticleNumber"; "Quantity"] offer_rows))
  = process_csv decimal
      (Some (Csv ["ArticleNumber"; "Quantity"]
               [ [Str "A1"; Str "abc"]; [Str "B2"; Num 4];
                 [Str "B2"; Str "3"] ])).
Proof.
  apply (process_csv_row_order decimal).
  - unfold offer_rows.
    apply (Permutation_cons_app [_; _] []). reflexivity.
  - intros j [= <-]. vm_compute. discriminate.
Defined.


Lemma process_csv_total_witness :
  exists out quantities,
    process_csv decimal (Some offer_file) = ([], Return out) /\
    column "Quantity" out = map Num quantities /\
    fold_right Z.add 0%Z quantities
    = fold_right Z.add 0%Z
        (map (fun r => amount (quantity_read decimal (at_ 1 r)))
             (filter (fun r => notna (at_ 0 r)) offer_rows)).
Proof.
  apply (process_csv_total decimal ["ArticleNumber"; "Quantity"]
           offer_rows 0 1); try reflexivity.
  vm_compute. discriminate.
Defined.

(** ** More on the request normaliser *)

Lemma stored_total_small (kind : dtype) (i j : nat)
    (raw : list (list cell)) (k : cell) :
  (magnitude stored_quantity j raw <= 2 ^ 53)%Z ->
  typed kind (group_sum i j k raw) = raw_total stored_quantity i j k raw.
Proof.
  intros Hb. rewrite group_sum_stored. apply typed_small.
  etransitivity; [apply raw_total_bound|exact Hb].
Qed.

(** X6.  The order of the rows fetched from the database does not
    matter to the grouping of lines 209-211 when no quantity is a text
    and the absolute values of the quantities add up to at most 2^53:
    permuted rows give the same mapping, or the same [KeyError]. *)
Theorem df_anfrage_display_row_order (cols : list string)
    (raw raw' : list (list cell)) :
  Permutation raw raw' ->
  (forall j, position "Quantity" cols = Some j ->
             (forall r, In r raw -> is_text (at_ j r) = false)
             /\ (magnitude stored_quantity j raw <= 2 ^ 53)%Z) ->
  df_anfrage_display (mkDataFrame cols raw)
  = df_anfrage_display (mkDataFrame cols raw').
Proof.
  intros P H.
  destruct raw as [|r t].
  { apply Permutation_nil in P. now subst raw'. }
  destruct raw' as [|r' t'].
  { symmetry in P. now apply Permutation_nil_cons in P. }
  destruct (position "ArticleNumber" cols) as [i|] eqn:Hi.
  - destruct (position "Quantity" cols) as [j|] eqn:Hj.
    + destruct (H j eq_refl) as [Hnum Hb].
      assert (Hnum' : forall x, In x (r' :: t') -> is_text (at_ j x) = false).
      { intros x Hx. apply Hnum.
        now apply (Permutation_in _ (Permutation_sym P)). }
      assert (Hb' : (magnitude stored_quantity j (r' :: t') <= 2 ^ 53)%Z).
      { now rewrite <- (magnitude_permutation _ j _ _ P). }
      rewrite !(df_anfrage_display_grouped cols _ i j Hi Hj)
        by (assumption || discriminate).
      rewrite (group_keys_permutation i _ _ P). f_equal.
      apply grouped_ext. intros k. rewrite !stored_total_small by assumption.
      now apply raw_total_permutation.
    + unfold df_anfrage_display, empty, groupby_sum. cbn [columns rows].
      destruct cols as [|c cs]; [reflexivity|]. cbn [negb].
      now rewrite Hi, Hj.
  - unfold df_anfrage_display, empty, groupby_sum. cbn [columns rows].
    destruct cols as [|c cs]; [reflexivity|]. cbn [negb].
    now rewrite Hi.
Qed.

Lemma df_anfrage_display_row_order_witness :
  df_anfrage_display request_rows
  = df_anfrage_display
      (mkDataFrame ["AnfrageID"; "ArticleNumber"; "Quantity"]
         [ [Num 7; Str "A1"; Num 5]; [Num 7; Str "B2"; Num 2];
           [Num 7; Str "B2"; Num 1] ]).
Proof.
  apply (df_anfrage_display_row_order
           ["AnfrageID"; "ArticleNumber"; "Quantity"]).
  - apply perm_swap.
  - intros j [= <-]. split.
    + intros r H. cbn in H.
      repeat (destruct H as [<-|H]; [reflexivity|]). destruct H.
    + vm_compute. discriminate.
Defined.

(** ** More on the statements of lines 128-162 *)

Lemma has_column_false (name : string) (cols : list string) :
  has_column name cols = false -> position name cols = None.
Proof.
  intros H. destruct (position name cols) as [i|] eqn:E; [|reflexivity].
  apply position_has_column in E. congruence.
Qed.

Lemma position_rename (new : string) (cols : list string) :
  new <> "ArticleNumber" ->
  position "ArticleNumber"
    (map (fun c => if String.eqb c "Quantity" then new else c) cols)
  = position "ArticleNumber" cols.
Proof.
  intros Hnew. induction cols as [|c cs IH]; cbn [map position];
    [reflexivity|].
  rewrite IH. destruct (String.eqb_spec c "Quantity") as [->|Hc].
  - apply String.eqb_neq in Hnew. now rewrite Hnew.
  - reflexivity.
Qed.

(** X7.  Behind the [return] of line 126, a frame without the column
    [ArticleNumber] on either side, such as [pd.DataFrame()], makes the
    merge raise [KeyError]: an input that is empty while the other is
    not yields no report. *)
Theorem merge_and_classify_missing_key (key_order : list cell -> list cell)
    (df_anfrage df_angebot : DataFrame) :
  has_column "ArticleNumber" (columns df_anfrage) = false
  \/ has_column "ArticleNumber" (columns df_angebot) = false ->
  merge_and_classify key_order df_anfrage df_angebot
  = Raise (KeyError "ArticleNumber").
Proof.
  intros H. unfold merge_and_classify, merge, rename. cbn [columns rows].
  rewrite !position_rename by discriminate.
  destruct H as [H|H]; apply has_column_false in H; rewrite H.
  - reflexivity.
  - destruct (position "ArticleNumber" (columns df_anfrage)); [|reflexivity].
    now destruct (position "Quantity_Anfrage" _).
Qed.

Lemma merge_and_classify_missing_key_witness :
  merge_and_classify sort_values (frame_of requested_sample) pd_DataFrame
  = Raise (KeyError "ArticleNumber").
Proof.
  apply merge_and_classify_missing_key. right. reflexivity.
Defined.

(** X8.  Behind the [return] of line 126, a row one of whose
    quantities is negative always gets the status [UnclassifiedError]. *)
Theorem negative_quantity_unclassified (key_order : list cell -> list cell)
    (requested offered : list (cell * Z)) (out : DataFrame)
    (row : list cell) :
  (forall l, Permutation (key_order l) l) ->
  NoDup (map fst requested) -> NoDup (map fst offered) ->
  merge_and_classify key_order (frame_of requested) (frame_of offered)
  = Return out ->
  In row (rows out) ->
  (exists n, (at_ 1 row = Num n \/ at_ 2 row = Num n) /\ (n < 0)%Z) ->
  at_ 3 row = Str UnclassifiedError.
Proof.
  intros Hperm Hr Ho Hout Hin [n [Hn Hneg]].
  destruct (report_rows key_order requested offered out row
              Hperm Hr Ho Hout Hin) as [k [_ ->]].
  unfold report_row in *. cbn [at_ nth] in *. f_equal.
  apply Resultat_unclassified.
  destruct Hn as [Hn|Hn]; injection Hn as Hn; lia.
Qed.

Lemma negative_quantity_unclassified_witness :
  at_ 3 [Str "A1"; Num (-2); Num 3; Str UnclassifiedError]
  = Str UnclassifiedError.
Proof.
  apply (negative_quantity_unclassified sort_values
           [(Str "A1", (-2)%Z)] [(Str "A1", 3%Z)]
           (mkDataFrame cols_order
              [[Str "A1"; Num (-2); Num 3; Str UnclassifiedError]])).
  - apply sort_values_perm.
  - distinct_keys.
  - distinct_keys.
  - reflexivity.
  - cbn. auto.
  - exists (-2)%Z. split; [now left|lia].
Defined.

Lemma filter_none {A : Type} (f : A -> bool) (l : list A) :
  (forall x, In x l -> f x = false) -> filter f l = [].
Proof.
  induction l as [|x t IH]; cbn [filter]; intros H; [reflexivity|].
  rewrite (H x (or_introl eq_refl)). apply IH. intros y Hy. apply H. now right.
Qed.

Lemma union_keys_same (m : list (cell * Z)) :
  NoDup (map fst m) -> union_keys m m = map fst m.
Proof.
  intros H. unfold union_keys. rewrite unique_app, (unique_NoDup _ H).
  rewrite filter_none; [apply app_nil_r|].
  intros k Hk. apply negb_false_iff, existsb_exists.
  exists k. split; [assumption|apply cell_eqb_refl].
Qed.

Lemma Resultat_same (q : Z) :
  Resultat (Num q) (Num q)
  = if (0 <? q)%Z then Match else UnclassifiedError.
Proof.
  unfold Resultat, conditions, results. cbn [gt0 eq0 eq_cells].
  rewrite Z.eqb_refl.
  destruct (Z.ltb_spec 0 q), (Z.eqb_spec q 0); cbn; try reflexivity; lia.
Qed.

Lemma compatible_with_itself (keys : list cell) :
  incompatible keys keys = false.
Proof.
  destruct keys as [|k t]; [reflexivity|].
  unfold incompatible. cbn [forallb].
  now destruct k; cbn [is_number is_text andb orb];
    rewrite ?andb_false_r.
Qed.

(** X9.  Behind the [return] of line 126, a mapping compared with
    itself gives one row per article, with the status [Match] when its
    quantity is positive and [UnclassifiedError] otherwise. *)
Theorem compare_with_itself (key_order : list cell -> list cell)
    (m : list (cell * Z)) :
  (forall l, Permutation (key_order l) l) ->
  NoDup (map fst m) ->
  merge_and_classify key_order (frame_of m) (frame_of m)
  = Return (mkDataFrame cols_order
              (map (fun k =>
                      [k; Num (get m k); Num (get m k);
                       Str (if (0 <? get m k)%Z then Match
                            else UnclassifiedError)])
                   (key_order (map fst m)))).
Proof.
  intros Hperm Hnd.
  rewrite (merge_and_classify_compatible key_order m m Hperm Hnd Hnd)
    by apply compatible_with_itself.
  rewrite (union_keys_same m Hnd). do 2 f_equal.
  apply map_ext. intros k. unfold report_row. now rewrite Resultat_same.
Qed.

Lemma compare_with_itself_witness :
  merge_and_classify sort_values
    (frame_of requested_sample) (frame_of requested_sample)
  = Return (mkDataFrame cols_order
              (map (fun k =>
                      [k; Num (get requested_sample k);
                       Num (get requested_sample k);
                       Str (if (0 <? get requested_sample k)%Z then Match
                            else UnclassifiedError)])
                   (sort_values (map fst requested_sample)))).
Proof.
  apply (compare_with_itself sort_values requested_sample).
  - apply sort_values_perm.
  - distinct_keys.
Defined.

Lemma Resultat_mirror (a b : Z) :
  Resultat (Num b) (Num a) = mirror (Resultat (Num a) (Num b)).
Proof.
  unfold Resultat, conditions, results. cbn [gt0 eq0 eq_cells].
  rewrite (Z.eqb_sym b a).
  destruct (Z.ltb_spec 0 a), (Z.ltb_spec 0 b), (Z.eqb_spec a b),
    (Z.eqb_spec a 0), (Z.eqb_spec b 0);
    cbn [np_select andb negb]; try lia; reflexivity.
Qed.

(** X10.  Behind the [return] of line 126, exchanging the request and
    the offer exchanges the two quantities of every article and the
    statuses [MissingFromOffer] and [ExtraInOffer], and keeps the other
    statuses. *)
Theorem exchange_request_and_offer (key_order key_order' : list cell -> list cell)
    (requested offered : list (cell * Z)) (out out' : DataFrame)
    (k a b : cell) (st : string) :
  (forall l, Permutation (key_order l) l) ->
  (forall l, Permutation (key_order' l) l) ->
  NoDup (map fst requested) -> NoDup (map fst offered) ->
  merge_and_classify key_order (frame_of requested) (frame_of offered)
  = Return out ->
  merge_and_classify key_order' (frame_of offered) (frame_of requested)
  = Return out' ->
  In [k; a; b; Str st] (rows out) ->
  In [k; b; a; Str (mirror st)] (rows out').
Proof.
  intros Hperm Hperm' Hr Ho Hout Hout' Hin.
  destruct (report_rows key_order requested offered out _
              Hperm Hr Ho Hout Hin) as [k0 [Hk E]].
  unfold report_row in E. injection E as -> -> -> ->.
  apply merge_and_classify_report in Hout'; try assumption. subst out'.
  cbn [rows]. apply in_map_iff. exists k0. split.
  - unfold report_row. now rewrite Resultat_mirror.
  - apply (Permutation_in _ (Permutation_sym (Hperm' _))), In_union_keys.
    tauto.
Qed.

Lemma exchange_request_and_offer_witness :
  In [Str "B2"; Num 2; Num 0; Str (mirror ExtraInOffer)]
     (rows (mkDataFrame cols_order
              [ [Str "A1"; Num 3; Num 5; Str QuantityMismatch];
                [Str "B2"; Num 2; Num 0; Str MissingFromOffer];
                [Str "C3"; Num 0; Num 4; Str ExtraInOffer] ])).
Proof.
  apply (exchange_request_and_offer sort_values sort_values
           requested_sample offered_sample report_sample).
  - apply sort_values_perm.
  - apply sort_values_perm.
  - distinct_keys.
  - distinct_keys.
  - reflexivity.
  - reflexivity.
  - cbn. auto.
Defined.

Lemma sum_get (keys : list cell) (m : list (cell * Z)) :
  NoDup keys -> NoDup (map fst m) -> incl (map fst m) keys ->
  fold_right Z.add 0%Z (map (get m) keys)
  = fold_right Z.add 0%Z (map snd m).
Proof.
  intros Hk. induction m as [|[k' q] t IH]; cbn [map fst snd get fold_right];
    intros Hm Hin.
  - induction keys as [|k ks IHk]; cbn [map fold_right]; [reflexivity|].
    apply NoDup_cons_iff in Hk. now rewrite IHk.
  - apply NoDup_cons_iff in Hm. destruct Hm as [Hk' Hm].
    assert (Hin' : incl (map fst t) keys)
      by (intros x Hx; apply Hin; now right).
    rewrite <- (IH Hm Hin').
    assert (E : existsb (cell_eqb k') keys = true).
    { apply existsb_exists. exists k'.
      split; [apply Hin; now left|apply cell_eqb_refl]. }
    assert (S := sum_indicator k' q keys Hk). rewrite E in S.
    transitivity
      (fold_right Z.add 0%Z
         (map (fun k => ((if cell_eqb k' k then q else 0) + get t k)%Z) keys)).
    + f_equal. apply map_ext. intros k.
      destruct (cell_eqb k' k) eqn:Ek; [|lia].
      apply cell_eqb_eq in Ek. subst k.
      rewrite (get_absent t k' Hk'). lia.
    + now rewrite sum_add, S.
Qed.

Lemma report_quantities (requested offered : list (cell * Z))
    (keys : list cell) :
  column "Quantity_Anfrage"
    (mkDataFrame cols_order (map (report_row requested offered) keys))
  = map Num (map (get requested) keys)
  /\ column "Quantity_Angebot"
       (mkDataFrame cols_order (map (report_row requested offered) keys))
     = map Num (map (get offered) keys).
Proof.
  unfold column. cbn [columns rows cols_order position String.eqb Ascii.eqb
                      Bool.eqb option_map].
  rewrite !map_map. split; now apply map_ext.
Qed.

(** X11.  Behind the [return] of line 126, when the merge accepts the
    two article columns and no quantity exceeds 2^53 in absolute value,
    the report keeps the totals: its requested quantities are numbers
    that add up to the total of the request, and its offered quantities
    numbers that add up to the total of the offer. *)
Theorem report_totals (key_order : list cell -> list cell)
    (requested offered : list (cell * Z)) :
  (forall l, Permutation (key_order l) l) ->
  NoDup (map fst requested) -> NoDup (map fst offered) ->
  incompatible (map fst requested) (map fst offered) = false ->
  Forall (fun kq => (Z.abs (snd kq) <= 2 ^ 53)%Z) requested ->
  Forall (fun kq => (Z.abs (snd kq) <= 2 ^ 53)%Z) offered ->
  exists out q_anfrage q_angebot,
    merge_and_classify key_order (frame_of requested) (frame_of offered)
    = Return out /\
    column "Quantity_Anfrage" out = map Num q_anfrage /\
    column "Quantity_Angebot" out = map Num q_angebot /\
    fold_right Z.add 0%Z q_anfrage
    = fold_right Z.add 0%Z (map snd requested) /\
    fold_right Z.add 0%Z q_angebot
    = fold_right Z.add 0%Z (map snd offered).
Proof.
  intros Hperm Hr Ho Hc _ _. do 3 eexists.
  split; [now apply merge_and_classify_compatible|].
  destruct (report_quantities requested offered
              (key_order (union_keys requested offered))) as [Ea Eo].
  split; [exact Ea|]. split; [exact Eo|].
  assert (Hk : NoDup (key_order (union_keys requested offered))).
  { apply (Permutation_NoDup (Permutation_sym (Hperm _))), NoDup_unique. }
  split; apply sum_get; try assumption; intros k Hin;
    apply (Permutation_in _ (Permutation_sym (Hperm _))), In_union_keys; tauto.
Qed.

Lemma report_totals_witness :
  exists out q_anfrage q_angebot,
    merge_and_classify sort_values
      (frame_of requested_sample) (frame_of offered_sample)
    = Return out /\
    column "Quantity_Anfrage" out = map Num q_anfrage /\
    column "Quantity_Angebot" out = map Num q_angebot /\
    fold_right Z.add 0%Z q_anfrage
    = fold_right Z.add 0%Z (map snd requested_sample) /\
    fold_right Z.add 0%Z q_angebot
    = fold_right Z.add 0%Z (map snd offered_sample).
Proof.
  apply (report_totals sort_values requested_sample offered_sample).
  - apply sort_values_perm.
  - distinct_keys.
  - distinct_keys.
  - reflexivity.
  - repeat constructor; vm_compute; discriminate.
  - repeat constructor; vm_compute; discriminate.
Defined.

(** ** The database access, [connect_db] *)

Lemma fetch_succeeds (pyodbc_connect : Driver)
    (server database uid pwd : string) (anfrage_id : Z) (df : DataFrame) :
  succeeds_with pyodbc_connect server database uid pwd anfrage_id df ->
  fetch pyodbc_connect server database uid pwd anfrage_id = db_ok df.
Proof. intros [conn [Ec Eq]]. unfold fetch. now rewrite Ec. Qed.

Lemma fetch_fails (pyodbc_connect : Driver)
    (server database uid pwd : string) (anfrage_id : Z) (e : db_error) :
  fails_with pyodbc_connect server database uid pwd anfrage_id e <->
  fetch pyodbc_connect server database uid pwd anfrage_id = db_raise e.
Proof.
  unfold fails_with, fetch. split.
  - intros [Ec|[conn [Ec Eq]]]; now rewrite Ec.
  - destruct (pyodbc_connect (conn_str server database uid pwd))
      as [conn|e'] eqn:Ec.
    + intros Eq. right. now exists conn.
    + intros [= ->]. now left.
Qed.

Lemma connect_db_hint (server database sqlstate ex : string) :
  exists hint,
    (st_error ("Erreur de connexion à la base de données: " ++ sqlstate) ;;;
     (if contains "Login failed" ex then
        st_error "Vérifiez vos identifiants de connexion (UID, PWD)."
      else if contains "Server not found" ex || contains "TCP/IP error" ex
      then st_error "Vérifiez le nom du serveur et la connectivité réseau."
      else if contains "Database not found" ex then
        st_error ("La base de données '" ++ database
                  ++ "' n'a pas été trouvée sur le serveur '" ++ server
                  ++ "'.")
      else st_error ("Détails de l'erreur: " ++ ex)) ;;;
     ret pd_DataFrame)%st
    = ([error ("Erreur de connexion à la base de données: " ++ sqlstate);
        error hint],
       Return pd_DataFrame).
Proof.
  destruct (contains "Login failed" ex); [eexists; reflexivity|].
  destruct (contains "Server not found" ex || contains "TCP/IP error" ex);
    [eexists; reflexivity|].
  destruct (contains "Database not found" ex); eexists; reflexivity.
Qed.

(** X12.  How a call of [connect_db] ends.  When the connection and
    the query succeed it returns the frame read and shows nothing.  When
    one of them raises a [pyodbc.Error] that carries a state, it shows
    two errors, the first naming the state, and returns the empty frame
    [pd.DataFrame()]; on any other exception it shows one error and
    returns [pd.DataFrame()].  It raises, an [IndexError] from line 50,
    exactly when a [pyodbc.Error] without arguments is raised. *)
Theorem connect_db_outcomes (pyodbc_connect : Driver)
    (server database uid pwd : string) (anfrage_id : Z) :
  (forall df,
     succeeds_with pyodbc_connect server database uid pwd anfrage_id df ->
     connect_db pyodbc_connect server database uid pwd anfrage_id
     = ([], Return df)) /\
  (forall sqlstate args ex,
     fails_with pyodbc_connect server database uid pwd anfrage_id
       (pyodbc_Error (sqlstate :: args) ex) ->
     exists hint,
       connect_db pyodbc_connect server database uid pwd anfrage_id
       = ([error ("Erreur de connexion à la base de données: " ++ sqlstate);
           error hint],
          Return pd_DataFrame)) /\
  (forall text,
     fails_with pyodbc_connect server database uid pwd anfrage_id
       (other_error text) ->
     connect_db pyodbc_connect server database uid pwd anfrage_id
     = ([error ("Une erreur inattendue est survenue lors de la connexion à la base de données: " ++ text)],
        Return pd_DataFrame)) /\
  (forall ex,
     fails_with pyodbc_connect server database uid pwd anfrage_id
       (pyodbc_Error [] ex) ->
     connect_db pyodbc_connect server database uid pwd anfrage_id
     = ([], Raise (IndexError "tuple index out of range"))) /\
  (raises (connect_db pyodbc_connect server database uid pwd anfrage_id) <->
   exists ex,
     fails_with pyodbc_connect server database uid pwd anfrage_id
       (pyodbc_Error [] ex)).
Proof.
  split; [|split; [|split; [|split]]].
  - intros df H. unfold connect_db. now rewrite (fetch_succeeds _ _ _ _ _ _ _ H).
  - intros sqlstate args ex H. apply fetch_fails in H.
    unfold connect_db. rewrite H. apply connect_db_hint.
  - intros text H. apply fetch_fails in H.
    unfold connect_db. now rewrite H.
  - intros ex H. apply fetch_fails in H.
    unfold connect_db. now rewrite H.
  - split.
    + intros [e He]. revert He. unfold connect_db.
      destruct (fetch pyodbc_connect server database uid pwd anfrage_id)
        as [df|[[|sqlstate args] ex|text]] eqn:E; cbn [snd].
      * discriminate.
      * intros _. exists ex. now apply fetch_fails.
      * destruct (connect_db_hint server database sqlstate ex) as [hint ->].
        discriminate.
      * discriminate.
    + intros [ex H]. apply fetch_fails in H.
      exists (IndexError "tuple index out of range").
      unfold connect_db. now rewrite H.
Qed.

Lemma connect_db_errors (pyodbc_connect : Driver)
    (server database uid pwd : string) (anfrage_id : Z) :
  Forall is_error
    (fst (connect_db pyodbc_connect server database uid pwd anfrage_id)).
Proof.
  unfold connect_db.
  destruct (fetch pyodbc_connect server database uid pwd anfrage_id)
    as [df|[[|sqlstate args] ex|text]].
  - constructor.
  - constructor.
  - destruct (connect_db_hint server database sqlstate ex) as [hint ->].
    repeat constructor; eexists; reflexivity.
  - repeat constructor. eexists; reflexivity.
Qed.

Lemma append_assoc (a b c : string) :
  ((a ++ b) ++ c = a ++ (b ++ c))%string.
Proof.
  induction a as [|x a IH]; cbn [String.append]; [reflexivity|].
  now rewrite IH.
Qed.

(** X13.  The connection string does not keep its fields apart: a
    user name that ends with [;PWD=x], used with the password [y], gives
    the very string of the same user name without this ending, used with
    the password [x;PWD=y]. *)
Theorem conn_str_fields_run_together (server database uid x y : string) :
  conn_str server database (uid ++ ";PWD=" ++ x) y
  = conn_str server database uid (x ++ ";PWD=" ++ y).
Proof.
  unfold conn_str. repeat (rewrite ?append_assoc; f_equal).
Qed.

Lemma connect_db_outcomes_witness :
  connect_db sample_driver "srv" "db" "me" "secret" 7
  = ([], Return request_rows)
  /\ exists hint,
       connect_db refusing_driver "srv" "db" "me" "secret" 7
       = ([error "Erreur de connexion à la base de données: 28000";
           error hint],
          Return pd_DataFrame).
Proof.
  split.
  - apply (connect_db_outcomes sample_driver "srv" "db" "me" "secret" 7).
    exists (fun _ _ => db_ok request_rows). split; reflexivity.
  - destruct (connect_db_outcomes refusing_driver "srv" "db" "me" "secret" 7)
      as [_ [H _]].
    apply (H "28000" [] "Login failed for user 'me'").
    left. reflexivity.
Defined.

(** ** The page, [main] *)

Lemma ui_bind_shown {A B : Type} (P : element -> Prop) (m : Ui A)
    (k : A -> Ui B) :
  Forall P (fst m) -> (forall a, Forall P (fst (k a))) ->
  Forall P (fst (ui_bind m k)).
Proof.
  intros Hm Hk. destruct m as [l [a|e]]; cbn [ui_bind fst] in *;
    [|assumption].
  specialize (Hk a). destruct (k a) as [l' r]. cbn [fst] in *.
  apply Forall_app. now split.
Qed.

Lemma call_shown {A : Type} (P : element -> Prop) (Q : message -> Prop)
    (m : St A) :
  Forall Q (fst m) -> (forall x, Q x -> P (shown x)) ->
  Forall P (fst (call m)).
Proof.
  intros Hm HQ. unfold call. cbn [fst]. apply Forall_map.
  eapply Forall_impl; [apply HQ|assumption].
Qed.

Lemma process_csv_errors (text_to_number : string -> option Z)
    (file : UploadedFile) :
  Forall is_error (fst (process_csv text_to_number (Some file))).
Proof.
  destruct file as [h b|e].
  - destruct (required_columns h) as [[i [j [Hi Hj]]]|H].
    + rewrite (process_csv_valid text_to_number h b i j Hi Hj). constructor.
    + destruct h as [|c cs];
        [repeat constructor; eexists; reflexivity|].
      unfold process_csv, read_csv, lift, bind, try_except. cbn [columns].
      assert (E : negb (has_column "ArticleNumber" (c :: cs))
                  || negb (has_column "Quantity" (c :: cs)) = true).
      { destruct H as [-> | ->]; [reflexivity|apply orb_true_r]. }
      rewrite E. repeat constructor. eexists; reflexivity.
  - destruct e; repeat constructor; eexists; reflexivity.
Qed.

Section MainFacts.

Variable text_to_number : string -> option Z.
Variable pyodbc_connect : Driver.
Variable to_csv : DataFrame -> string.

Local Abbreviation page := (main text_to_number pyodbc_connect to_csv).
Local Abbreviation section := (comparison_section to_csv).

(** What every part of the page shows satisfies [P], provided the
    messages of the three functions called and the elements of the page
    itself do. *)
Lemma load_anfrage_shown (P : element -> Prop) (ui : Sidebar) :
  (forall text, P (shown (error text))) ->
  Forall P (fst (load_anfrage pyodbc_connect ui)).
Proof.
  intros HP. unfold load_anfrage.
  destruct (anfrage_id_filter ui >? 0)%Z; [|constructor].
  destruct (db_configured ui); [|constructor].
  apply ui_bind_shown; [|constructor].
  apply (call_shown P is_error); [apply connect_db_errors|].
  intros x [text ->]. apply HP.
Qed.

Lemma load_angebot_shown (P : element -> Prop) (ui : Sidebar) :
  (forall text, P (shown (error text))) ->
  Forall P (fst (load_angebot text_to_number ui)).
Proof.
  intros HP. unfold load_angebot.
  destruct (uploaded_file ui) as [file|]; [|constructor].
  apply (call_shown P is_error); [apply process_csv_errors|].
  intros x [text ->]. apply HP.
Qed.

Lemma comparison_section_cases (ui : Sidebar) (a o : DataFrame) :
  section ui a o
  = if compare_button ui then
      if negb (empty a) && negb (empty o) then
        ([success "Données de la demande et de l'offre chargées. Comparaison en cours...";
          header "Tableau Comparatif";
          shown (info "La comparaison n'a produit aucun résultat. Vérifiez que les ArticleNumber correspondent entre la demande et l'offre.")],
         Return tt)
      else if empty a && empty o then
        show (shown (warning "Veuillez charger les données de la demande (via DB) et de l'offre (via CSV) avant de comparer."))
      else if empty a then
        show (shown (warning "Les données de la demande (Anfrage) sont manquantes. Veuillez vérifier la connexion DB et l'AnfrageID."))
      else
        show (shown (warning "Les données de l'offre (Angebot) n'ont pas été chargées ou traitées. Veuillez uploader un fichier CSV valide."))
    else
      ([header "Tableau Comparatif";
        shown (info
          (if empty a && empty o then
             "Cliquez sur 'Comparer' dans la barre latérale après avoir configuré la DB, entré une AnfrageID et chargé un fichier CSV."
           else if empty a then
             "En attente des données de la demande (Anfrage). Configurez la DB et entrez une AnfrageID."
           else if empty o then
             "En attente des données de l'offre (Angebot). Chargez un fichier CSV."
           else
             "Données de la demande et de l'offre chargées. Prêt à comparer. Cliquez sur le bouton 'Comparer' dans la barre latérale."))],
       Return tt).
Proof.
  unfold comparison_section, compare_data.
  destruct (compare_button ui), (empty a), (empty o); reflexivity.
Qed.

Ltac each_element solve_it :=
  repeat (apply ui_bind_shown; [|intros ?]);
  try rewrite comparison_section_cases;
  try (apply load_anfrage_shown; intros; solve_it);
  try (apply load_angebot_shown; intros; solve_it);
  repeat match goal with
         | |- context [if ?c then _ else _] => destruct c eqn:?
         | |- context [match ?c with Some _ => _ | None => _ end] =>
             destruct c eqn:?
         end;
  cbn [show fst]; repeat (apply Forall_cons || apply Forall_nil);
  cbv beta; solve_it.

(** X14.  Whatever the inputs and the database, the page never shows
    its two catch-all messages, the warning of line 280 and the
    information of line 295: the cases before them leave nothing over. *)
Theorem main_never_falls_through (ui : Sidebar) :
  Forall
    (fun e =>
       e <> shown (warning "Une erreur inconnue est survenue. Assurez-vous que les données de la demande et de l'offre sont correctement chargées.")
       /\ e <> shown (info "Configurez les sources de données et cliquez sur 'Comparer'."))
    (fst (page ui)).
Proof.
  unfold main.
  each_element ltac:(split; discriminate).
Qed.

(** X16.  Whatever the inputs and the database, the page never shows
    the warning of [compare_data] on two empty inputs: it calls
    [compare_data] only with two frames that have rows. *)
Theorem main_never_compares_nothing (ui : Sidebar) :
  Forall
    (fun e =>
       e <> shown (warning "Aucune donnée de demande ou d'offre à comparer."))
    (fst (page ui)).
Proof.
  unfold main.
  each_element ltac:(discriminate).
Qed.

End MainFacts.
